(** * black/__init__.py: feature detection, future imports, decoding and the
      formatting entry point, embedded in Rocq.

    Source under study: [src/lib/common/black/__init__.py].  The functions
    [get_features_used], [detect_target_versions], [get_future_imports],
    [decode_bytes] and [format_str] are translated definition by definition.
    What they import from other modules ([black.mode], [black.parsing],
    [black.linegen], [black.lines], [black.nodes], [blib2to3]) is not part of
    the sources; those pieces are section variables, or small models that say
    so in their comment. *)

From Stdlib Require Import ZArith NArith Ascii String List Lia.
From stdpp Require Import base decidable countable finite gmap strings list.

Local Open Scope string_scope.
Set Warnings "-register-all,-clear-no-such-hyp,-notation-for-abbreviation".


(** ** Python [str] operations used by the module *)

Module PyStr.

(** [s[i]] for an index inside the string. *)
Definition get (i : nat) (s : string) : option ascii := String.get i s.

(** [s[:n]]: a slice never fails, it is cut at the end of the string. *)
Fixpoint take (n : nat) (s : string) : string :=
  match n, s with
  | S n', String c s' => String c (take n' s')
  | _, _ => EmptyString
  end.

(** [s[n:]]. *)
Fixpoint drop (n : nat) (s : string) : string :=
  match n, s with
  | S n', String _ s' => drop n' s'
  | _, _ => s
  end.

(** [s.startswith(p)]. *)
Fixpoint startswith (s p : string) : bool :=
  match p, s with
  | EmptyString, _ => true
  | String a p', String b s' => bool_decide (a = b) && startswith s' p'
  | String _ _, EmptyString => false
  end.

(** [needle in hay]: substring test. *)
Fixpoint contains (needle hay : string) : bool :=
  startswith hay needle
  || match hay with
     | EmptyString => false
     | String _ hay' => contains needle hay'
     end.

(** [s.endswith(suffix)]. *)
Definition endswith (s suffix : string) : bool :=
  bool_decide (drop (String.length s - String.length suffix) s = suffix).

(** [c.isdigit()] for the code points an [ascii] can hold: the digits 0 to 9
    and the superscripts two, three and one (178, 179, 185). *)
Definition isdigit (c : ascii) : bool :=
  let n := N_of_ascii c in
  ((48 <=? n) && (n <=? 57) || (n =? 178) || (n =? 179) || (n =? 185))%N.

(** [all(p(char) for char in s)]. *)
Fixpoint all (p : ascii -> bool) (s : string) : bool :=
  match s with
  | EmptyString => true
  | String c s' => p c && all p s'
  end.

(** [c.isspace()] for the code points an [ascii] can hold: TAB, LF, VT, FF,
    CR, the separators FS GS RS US, SPACE, NEL and NBSP. *)
Definition isspace (c : ascii) : bool :=
  let n := N_of_ascii c in
  ((9 <=? n) && (n <=? 13) || (28 <=? n) && (n <=? 32)
   || (n =? 133) || (n =? 160))%N.

(** [s.lstrip()]. *)
Fixpoint lstrip (s : string) : string :=
  match s with
  | String c s' => if isspace c then lstrip s' else s
  | EmptyString => EmptyString
  end.

(** [piece * n]. *)
Fixpoint repeat (piece : string) (n : nat) : string :=
  match n with
  | O => EmptyString
  | S n' => piece +:+ repeat piece n'
  end.

(** [sep.join(pieces)] with the empty separator. *)
Definition join (pieces : list string) : string :=
  fold_right String.app EmptyString pieces.

End PyStr.

(** ** Python exceptions as values *)

Inductive PyError : Type :=
  | AssertionError (msg : string)
  | IndexError
  | InvalidInput (msg : string)
  | SyntaxError (msg : string)
  | SyntaxErrorAt (lineno column : nat) (text : string)
  | UnicodeDecodeError.

Inductive result (A : Type) : Type :=
  | Ok (a : A)
  | Raise (e : PyError).
Arguments Ok {A} a.
Arguments Raise {A} e.

#[global] Instance result_ret : MRet result := fun A a => Ok a.
#[global] Instance result_bind : MBind result := fun A B k r =>
  match r with
  | Ok a => k a
  | Raise e => Raise e
  end.

(** Left-to-right evaluation of [f] over a list; the first exception wins. *)
Definition traverse {A B : Type} (f : A -> result B) : list A -> result (list B) :=
  fix go (l : list A) : result (list B) :=
    match l with
    | [] => Ok []
    | a :: l' => b ← f a; bs ← go l'; Ok (b :: bs)
    end.

(** ** The concrete syntax tree of blib2to3.pytree *)

Module Pytree.

(** Token kinds ([blib2to3.pgen2.token]) the module refers to by name.  In
    Python they are pairwise distinct small integers; every other token
    kind is [OTHER_TOKEN] with its number. *)
Inductive TokenType : Type :=
  | NAME | NUMBER | STRING | NEWLINE | COMMA | STAR | SLASH | DOUBLESTAR
  | BACKQUOTE | COLONEQUAL
  | OTHER_TOKEN (code : N).

(** Grammar symbols ([black.nodes.syms]) the module refers to by name; any
    other symbol is [other_symbol] with its number. *)
Inductive Symbol : Type :=
  | typedargslist | arglist | varargslist | decorator | argument
  | print_stmt | exec_stmt | tfpdef | except_clause | raise_stmt
  | simple_stmt | import_from | import_as_name | import_as_names
  | other_symbol (code : N).

(** [n.type]: a [Leaf] carries a token kind (below 256), a [Node] a grammar
    symbol (256 and above), so the two never compare equal. *)
Inductive NodeType : Type :=
  | Tok (t : TokenType)
  | Sym (s : Symbol).

#[global] Instance TokenType_eq_dec : EqDecision TokenType.
Proof. solve_decision. Defined.
#[global] Instance Symbol_eq_dec : EqDecision Symbol.
Proof. solve_decision. Defined.
#[global] Instance NodeType_eq_dec : EqDecision NodeType.
Proof. solve_decision. Defined.

(** [LN = Union[Leaf, Node]].  A leaf has a token kind and its text; a node
    has a symbol and its children in document order. *)
Inductive LN : Type :=
  | Leaf (type : TokenType) (value : string)
  | Node (type : Symbol) (children : list LN).

Definition type (n : LN) : NodeType :=
  match n with
  | Leaf t _ => Tok t
  | Node s _ => Sym s
  end.

(** [n.value]; only leaves have one, and the module reads it only there. *)
Definition value (n : LN) : string :=
  match n with
  | Leaf _ v => v
  | Node _ _ => EmptyString
  end.

(** [n.children]; a leaf has the empty list. *)
Definition children (n : LN) : list LN :=
  match n with
  | Leaf _ _ => []
  | Node _ ch => ch
  end.

(** [isinstance(n, Leaf)]. *)
Definition is_leaf (n : LN) : bool :=
  match n with
  | Leaf _ _ => true
  | Node _ _ => false
  end.

(** A node as the traversal meets it: [n.parent] (its type, [None] at the
    root) together with the node. *)
Definition Visited : Type := option Symbol * LN.

(** [Base.pre_order]: the node itself, then the pre-order of each child. *)
Fixpoint pre_order_from (parent : option Symbol) (n : LN) : list Visited :=
  match n with
  | Leaf _ _ => [(parent, n)]
  | Node s ch => (parent, n) :: flat_map (pre_order_from (Some s)) ch
  end.

Definition pre_order (root : LN) : list Visited := pre_order_from None root.

(** [occurs n t]: [n] is [t] or sits somewhere below it. *)
Inductive occurs (n : LN) : LN -> Prop :=
  | occurs_here : occurs n n
  | occurs_below s ch c : c ∈ ch -> occurs n c -> occurs n (Node s ch).

End Pytree.
Import Pytree.

(** ** black.mode.Feature *)

(** The members of the [Feature] enumeration this module names.  Members of a
    Python [Enum] are pairwise distinct. *)
Inductive Feature : Type :=
  | UNICODE_LITERALS
  | F_STRINGS
  | NUMERIC_UNDERSCORES
  | TRAILING_COMMA_IN_CALL
  | TRAILING_COMMA_IN_DEF
  | ASSIGNMENT_EXPRESSIONS
  | POS_ONLY_ARGUMENTS
  | RELAXED_DECORATORS
  | PRINT_STMT
  | EXEC_STMT
  | AUTOMATIC_PARAMETER_UNPACKING
  | COMMA_STYLE_EXCEPT
  | COMMA_STYLE_RAISE
  | LONG_INT_LITERAL
  | OCTAL_INT_LITERAL
  | BACKQUOTE_REPR.

#[global] Instance Feature_eq_dec : EqDecision Feature.
Proof. solve_decision. Defined.

Definition Feature_all : list Feature :=
  [ UNICODE_LITERALS; F_STRINGS; NUMERIC_UNDERSCORES; TRAILING_COMMA_IN_CALL;
    TRAILING_COMMA_IN_DEF; ASSIGNMENT_EXPRESSIONS; POS_ONLY_ARGUMENTS;
    RELAXED_DECORATORS; PRINT_STMT; EXEC_STMT; AUTOMATIC_PARAMETER_UNPACKING;
    COMMA_STYLE_EXCEPT; COMMA_STYLE_RAISE; LONG_INT_LITERAL; OCTAL_INT_LITERAL;
    BACKQUOTE_REPR ].

#[global, refine] Instance Feature_finite : Finite Feature :=
  {| enum := Feature_all |}.
Proof.
  - unfold Feature_all. apply NoDup_ListNoDup.
    repeat (constructor; [cbn; intuition discriminate|]). constructor.
  - intros []; unfold Feature_all; set_solver.
Defined.

(** The features the source tags as Python 2 only: the ones under its comment
    "Python 2 only features (for its deprecation) except for integers, see
    above", and the two integer forms ("Python 2: 10L", "Python 2: 0123"). *)
Definition python2_only (f : Feature) : bool :=
  match f with
  | PRINT_STMT | EXEC_STMT | AUTOMATIC_PARAMETER_UNPACKING
  | COMMA_STYLE_EXCEPT | COMMA_STYLE_RAISE | BACKQUOTE_REPR
  | LONG_INT_LITERAL | OCTAL_INT_LITERAL => true
  | _ => false
  end.

(** ** get_features_used *)

Section FeatureDetection.

(** [black.nodes.is_simple_decorator_expression] and [black.nodes.STARS]
    are imported by the module and not part of the sources. *)
Variable is_simple_decorator_expression : LN -> bool.
Variable STARS : list NodeType.

(** The two heads [f"] and [F"] that end in a double quote (character 34). *)
Definition f_dq : string := String "f" (String "034" EmptyString).
Definition F_dq : string := String "F" (String "034" EmptyString).

(** [n.children[-2]]; read only when there are at least four children. *)
Definition last_but_one (l : list LN) : option LN :=
  if (2 <=? length l)%nat then l !! (length l - 2)%nat else None.

(** The inner loop over the children of a [typedargslist] / [arglist] whose
    last child is a comma: [feature] is added for a star among the children,
    or among the children of an [argument] child. *)
Definition star_features (feature : Feature) (chs : list LN) (features : gset Feature)
  : gset Feature :=
  foldl
    (fun features ch =>
       let features :=
         if bool_decide (type ch ∈ STARS) then {[feature]} ∪ features
         else features in
       if bool_decide (type ch = Sym argument) then
         foldl
           (fun features argch =>
              if bool_decide (type argch ∈ STARS) then {[feature]} ∪ features
              else features)
           features (children ch)
       else features)
    features chs.

(** The body of [for n in node.pre_order()]: one pass through the
    [if]/[elif] chain, returning [features] after the [add]s. *)
Definition visit (features : gset Feature) (v : Visited) : gset Feature :=
  let '(parent, n) := v in
  if bool_decide (type n = Tok STRING) then
    let value_head := PyStr.take 2 (value n) in
    if bool_decide
         (value_head ∈ [f_dq; F_dq; "f'"; "F'"; "rf"; "fr"; "RF"; "FR"])
    then {[F_STRINGS]} ∪ features
    else features
  else if bool_decide (type n = Tok NUMBER) then
    if PyStr.contains "_" (value n) then
      {[NUMERIC_UNDERSCORES]} ∪ features
    else if PyStr.endswith (value n) "L" || PyStr.endswith (value n) "l" then
      {[LONG_INT_LITERAL]} ∪ features
    else if (2 <=? String.length (value n))%nat
            && bool_decide (PyStr.get 0 (value n) = Some "0"%char)
            && from_option PyStr.isdigit false (PyStr.get 1 (value n)) then
      if negb (PyStr.all (fun char => bool_decide (char = "0"%char)) (value n))
      then {[OCTAL_INT_LITERAL]} ∪ features
      else features
    else features
  else if bool_decide (type n = Tok SLASH) then
    match parent with
    | Some p =>
        if bool_decide (p ∈ [typedargslist; arglist; varargslist])
        then {[POS_ONLY_ARGUMENTS]} ∪ features
        else features
    | None => features
    end
  else if bool_decide (type n = Tok COLONEQUAL) then
    {[ASSIGNMENT_EXPRESSIONS]} ∪ features
  else if bool_decide (type n = Sym decorator) then
    match children n !! 1 with
    | Some second =>
        if negb (is_simple_decorator_expression second)
        then {[RELAXED_DECORATORS]} ∪ features
        else features
    | None => features
    end
  else if bool_decide (type n ∈ [Sym typedargslist; Sym arglist])
          && from_option (fun l => bool_decide (type l = Tok COMMA)) false
               (last (children n)) then
    let feature :=
      if bool_decide (type n = Sym typedargslist) then TRAILING_COMMA_IN_DEF
      else TRAILING_COMMA_IN_CALL in
    star_features feature (children n) features
  else if bool_decide (type n = Sym print_stmt) then
    {[PRINT_STMT]} ∪ features
  else if bool_decide (type n = Sym exec_stmt) then
    {[EXEC_STMT]} ∪ features
  else if bool_decide (type n = Sym tfpdef) then
    {[AUTOMATIC_PARAMETER_UNPACKING]} ∪ features
  else if bool_decide (type n = Sym except_clause) then
    if (4 <=? length (children n))%nat
       && from_option (fun c => bool_decide (type c = Tok COMMA)) false
            (last_but_one (children n))
    then {[COMMA_STYLE_EXCEPT]} ∪ features
    else features
  else if bool_decide (type n = Sym raise_stmt) then
    if (4 <=? length (children n))%nat
       && from_option (fun c => bool_decide (type c = Tok COMMA)) false
            (last_but_one (children n))
    then {[COMMA_STYLE_RAISE]} ∪ features
    else features
  else if bool_decide (type n = Tok BACKQUOTE) then
    {[BACKQUOTE_REPR]} ∪ features
  else features.

(** [get_features_used(node)], [node] being the root of a parsed tree. *)
Definition get_features_used (node : LN) : gset Feature :=
  foldl visit ∅ (pre_order node).

End FeatureDetection.

(** ** get_future_imports *)

(** One iteration of the loop of the nested generator
    [get_imports_from_children]: what a single [child] yields, or the
    exception it raises. *)
Fixpoint get_imports_from_child (child : LN) : result (list string) :=
  match child with
  | Leaf t v =>
      if bool_decide (t = NAME) then Ok [v] else Ok []
  | Node s ch =>
      if bool_decide (s = import_as_name) then
        match ch with
        | [] => Raise IndexError
        | orig_name :: _ =>
            if negb (is_leaf orig_name) then
              Raise (AssertionError "Invalid syntax parsing imports")
            else if negb (bool_decide (type orig_name = Tok NAME)) then
              Raise (AssertionError "Invalid syntax parsing imports")
            else Ok [value orig_name]
        end
      else if bool_decide (s = import_as_names) then
        names ← traverse get_imports_from_child ch; Ok (List.concat names)
      else Raise (AssertionError "Invalid syntax parsing imports")
  end.

(** [get_imports_from_children(children)], the names in the order yielded. *)
Definition get_imports_from_children (chs : list LN) : result (list string) :=
  names ← traverse get_imports_from_child chs; Ok (List.concat names).

(** The loop [for child in node.children] with the set [imports] built so
    far; [break] returns it, [continue] goes on with the rest. *)
Fixpoint future_imports_loop (chs : list LN) (imports : gset string)
  : result (gset string) :=
  match chs with
  | [] => Ok imports
  | child :: rest =>
      if negb (bool_decide (type child = Sym simple_stmt)) then Ok imports
      else
        match children child !! 0%nat with
        | None => Raise IndexError
        | Some first_child =>
            if is_leaf first_child then
              if bool_decide (length (children child) = 2%nat)
                 && bool_decide (type first_child = Tok STRING)
                 && from_option (fun c => bool_decide (type c = Tok NEWLINE)) false
                      (children child !! 1%nat)
              then future_imports_loop rest imports
              else Ok imports
            else if bool_decide (type first_child = Sym import_from) then
              match children first_child !! 1%nat with
              | None => Raise IndexError
              | Some module_name =>
                  if negb (is_leaf module_name)
                     || negb (bool_decide (value module_name = "__future__"))
                  then Ok imports
                  else
                    names ← get_imports_from_children (drop 3 (children first_child));
                    future_imports_loop rest (imports ∪ list_to_set names)
              end
            else Ok imports
        end
  end.

Definition get_future_imports (node : LN) : result (gset string) :=
  future_imports_loop (children node) ∅.

(** ** decode_bytes *)

Definition Encoding : Type := string.
Definition NewLine : Type := string.
Definition FileContent : Type := string.

#[global] Instance byte_eq_dec : EqDecision Byte.byte := Byte.byte_eq_dec.

Module PyBytes.

Definition bytes : Type := list Byte.byte.

Definition LF : Byte.byte := Byte.x0a.
Definition CR : Byte.byte := Byte.x0d.

(** [codecs.BOM_UTF8]. *)
Definition BOM_UTF8 : bytes := [Byte.xef; Byte.xbb; Byte.xbf].

(** [b.startswith(p)]. *)
Fixpoint startswith (b p : bytes) : bool :=
  match p, b with
  | [], _ => true
  | x :: p', y :: b' => bool_decide (x = y) && startswith b' p'
  | _ :: _, [] => false
  end.

(** [b[-2:]]: the last two bytes, or all of [b] when it is shorter. *)
Definition last2 (b : bytes) : bytes := drop (length b - 2) b.

(** [io.BytesIO.readline] on the unread part of the buffer: the bytes up to
    and including the first LF (all of them when there is none), and what
    is left to read. *)
Fixpoint readline (buf : bytes) : bytes * bytes :=
  match buf with
  | [] => ([], [])
  | x :: buf' =>
      if bool_decide (x = LF) then ([x], buf')
      else let '(line, rest) := readline buf' in (x :: line, rest)
  end.

End PyBytes.
Import PyBytes.

Module PyChars.
Definition LF : ascii := "010"%char.
Definition CR : ascii := "013"%char.
Definition LF_str : string := String LF EmptyString.
Definition CRLF_str : string := String CR (String LF EmptyString).
End PyChars.

(** [s.replace(old, new)] for a non-empty [old]: occurrences are replaced left
    to right without overlap; [skip] counts the characters of a matched
    occurrence still to be passed over. *)
Fixpoint replace_from (old new : string) (skip : nat) (s : string) : string :=
  match s with
  | EmptyString => EmptyString
  | String c s' =>
      match skip with
      | S k => replace_from old new k s'
      | O =>
          if PyStr.startswith s old
          then new +:+ replace_from old new (String.length old - 1) s'
          else String c (replace_from old new 0 s')
      end
  end.

Definition replace (old new s : string) : string := replace_from old new 0 s.

(** Universal-newline translation of [io.IncrementalNewlineDecoder] on a
    whole text: CRLF becomes LF, then every remaining CR becomes LF. *)
Definition translate_newlines (text : string) : string :=
  replace (String PyChars.CR EmptyString) PyChars.LF_str
    (replace PyChars.CRLF_str PyChars.LF_str text).

Section Decoding.

(** The codec machinery of the standard library: [find_cookie] is the
    encoding-declaration lookup of [tokenize.detect_encoding] (it is told
    whether a BOM was found, and may raise [SyntaxError]); [decode] is the
    codec named by an encoding applied to the whole buffer. *)
Variable find_cookie : bool -> bytes -> result (option Encoding).
Variable decode : Encoding -> bytes -> result string.

(** [blank_re = rb'^[ \t\f]*(?:[#\r\n]|$)'] of [tokenize]. *)
Fixpoint blank_re_match (line : bytes) : bool :=
  match line with
  | [] => true
  | x :: line' =>
      if bool_decide (x ∈ [Byte.x20; Byte.x09; Byte.x0c]) then blank_re_match line'
      else bool_decide (x ∈ [Byte.x23; Byte.x0d; Byte.x0a])
  end.

(** [tokenize.detect_encoding(srcbuf.readline)] on a fresh buffer holding
    [src]: the encoding and the lines (at most two) it has read, the first
    one without a leading BOM. *)
Definition detect_encoding (src : bytes) : result (Encoding * list bytes) :=
  let '(first, unread) := readline src in
  let bom_found := PyBytes.startswith first BOM_UTF8 in
  let first := if bom_found then drop 3 first else first in
  let default := if bom_found then "utf-8-sig" else "utf-8" in
  if bool_decide (first = []) then Ok (default, [])
  else
    encoding ← find_cookie bom_found first;
    match encoding with
    | Some encoding => Ok (encoding, [first])
    | None =>
        if negb (blank_re_match first) then Ok (default, [first])
        else
          let '(second, _) := readline unread in
          if bool_decide (second = []) then Ok (default, [first])
          else
            encoding ← find_cookie bom_found second;
            match encoding with
            | Some encoding => Ok (encoding, [first; second])
            | None => Ok (default, [first; second])
            end
    end.

(** [io.TextIOWrapper(srcbuf, encoding).read()] after [srcbuf.seek(0)]:
    the whole buffer decoded, with universal newlines (the default). *)
Definition TextIOWrapper_read (src : bytes) (encoding : Encoding) : result string :=
  text ← decode encoding src;
  Ok (translate_newlines text).

Definition decode_bytes (src : bytes) : result (FileContent * Encoding * NewLine) :=
  '(encoding, lines) ← detect_encoding src;
  match lines with
  | [] => Ok (EmptyString, encoding, PyChars.LF_str)
  | line0 :: _ =>
      let newline :=
        if bool_decide ([CR; LF] = last2 line0) then PyChars.CRLF_str
        else PyChars.LF_str in
      contents ← TextIOWrapper_read src encoding;
      Ok (contents, encoding, newline)
  end.

End Decoding.

(** ** detect_target_versions and format_str *)

Section Formatter.

(** [black.mode.TargetVersion] is an enumeration declared outside the
    sources: a finite type, iterated by [for version in TargetVersion], with
    the member [PY27] the module names.  [VERSION_TO_FEATURES] is the table
    of [black.mode], read only through [VERSION_TO_FEATURES[version]]. *)
Context {TargetVersion : Type} `{Finite TargetVersion}.
Variable PY27 : TargetVersion.
Variable VERSION_TO_FEATURES : TargetVersion -> gset Feature.

Variable is_simple_decorator_expression : LN -> bool.
Variable STARS : list NodeType.

Definition detect_target_versions (node : LN) : gset TargetVersion :=
  let features := get_features_used is_simple_decorator_expression STARS node in
  list_to_set
    (filter (fun version => features ⊆ VERSION_TO_FEATURES version)
       (enum TargetVersion)).

(** [black.mode.Mode], with the options the module and its docstring use. *)
Record Mode : Type := {
  target_versions : gset TargetVersion;
  line_length : nat;
  string_normalization : bool;
  is_pyi : bool
}.

(** Modelled from the spec: the stages [format_str] calls into, which live
    in [black.parsing], [black.comments], [black.linegen], [black.lines] and
    [black.mode], none of them part of the sources.  The parser "produce[s]
    a SyntaxNode tree or fail[s]"; the "directive-normalizer and splitter
    stages never raise"; the line generator "produces a lazy, finite ...
    sequence of LogicalLine values"; the blank-line policy is a function of
    the lines seen so far and the current one.  The parser is handed
    [mode.target_versions] as in the source. *)
Variable lib2to3_parse : string -> gset TargetVersion -> result LN.
Variable normalize_fmt_off : LN -> LN.
Variable supports_feature : gset TargetVersion -> Feature -> bool.
Variable Line : Type.
Variable Line_new : Mode -> Line.
Variable Line_str : Line -> string.
Variable LineGenerator_visit : Mode -> bool -> LN -> list Line.
Variable EmptyLineTracker : Type.
Variable EmptyLineTracker_new : bool -> EmptyLineTracker.
Variable maybe_empty_lines : EmptyLineTracker -> Line -> (nat * nat) * EmptyLineTracker.
Variable transform_line : Line -> Mode -> gset Feature -> list Line.

Definition deprecation_msg : string :=
  "DEPRECATION: Python 2 support will be removed in the first stable release "
  +:+ "expected in January 2022.".

(** The local [versions] of [format_str]: the pinned set when it is not
    empty, the detected one otherwise. *)
Definition versions (mode : Mode) (src_node : LN) : gset TargetVersion :=
  if bool_decide (target_versions mode ≠ ∅) then target_versions mode
  else detect_target_versions src_node.

(** What [format_str] hands to [show_error_panel], in order. *)
Definition panel (mode : Mode) (versions : gset TargetVersion) : list string :=
  if bool_decide (PY27 ∈ target_versions mode) || bool_decide (versions = {[PY27]})
  then [deprecation_msg]
  else [].

(** One round of [for current_line in lines.visit(src_node)], on the state
    [(elt, after, dst_contents)]. *)
Definition emit (mode : Mode) (split_line_features : gset Feature)
    (st : EmptyLineTracker * nat * list string) (current_line : Line)
  : EmptyLineTracker * nat * list string :=
  let '(elt, after, dst_contents) := st in
  let empty_line := Line_new mode in
  let dst_contents :=
    (dst_contents ++ [PyStr.repeat (Line_str empty_line) after])%list in
  let '((before, after), elt) := maybe_empty_lines elt current_line in
  let dst_contents :=
    (dst_contents ++ [PyStr.repeat (Line_str empty_line) before])%list in
  let dst_contents :=
    (dst_contents
     ++ (Line_str <$> transform_line current_line mode split_line_features))%list in
  (elt, after, dst_contents).

(** [format_str] from [normalize_fmt_off(src_node)] on, once [future_imports]
    and [versions] are known. *)
Definition format_node (mode : Mode) (future_imports : gset string)
    (versions : gset TargetVersion) (src_node : LN) : FileContent :=
  let src_node := normalize_fmt_off src_node in
  let lines :=
    LineGenerator_visit mode
      (bool_decide ("unicode_literals" ∈ future_imports)
       || supports_feature versions UNICODE_LITERALS)
      src_node in
  let elt := EmptyLineTracker_new (is_pyi mode) in
  let split_line_features : gset Feature :=
    filter (fun feature => supports_feature versions feature = true)
      ({[TRAILING_COMMA_IN_CALL; TRAILING_COMMA_IN_DEF]} : gset Feature) in
  let '(_, _, dst_contents) :=
    foldl (emit mode split_line_features) (elt, 0%nat, []) lines in
  PyStr.join dst_contents.

(** [format_str(src_contents, mode=mode)]: the messages shown on the error
    panel and the new contents, or the exception raised. *)
Definition format_str (src_contents : string) (mode : Mode)
  : result (list string * FileContent) :=
  src_node ← lib2to3_parse (PyStr.lstrip src_contents) (target_versions mode);
  future_imports ← get_future_imports src_node;
  let versions := versions mode src_node in
  Ok (panel mode versions, format_node mode future_imports versions src_node).

End Formatter.

(** ** A small instance of the imported pieces

    Used to run the definitions above on concrete inputs.  It is not the
    configuration black ships: the two profiles are the two members of
    [TargetVersion] the module itself names, and the later stages are the
    simplest ones of the right shape. *)

Module Sample.

(** [TargetVersion.PY27] and [TargetVersion.PY36]. *)
Inductive TargetVersion : Type := PY27 | PY36.

#[global] Instance TargetVersion_eq_dec : EqDecision TargetVersion.
Proof. solve_decision. Defined.

#[global, refine] Instance TargetVersion_finite : Finite TargetVersion :=
  {| enum := [PY27; PY36] |}.
Proof.
  - apply NoDup_ListNoDup.
    repeat (constructor; [cbn; intuition discriminate|]). constructor.
  - intros []; set_solver.
Defined.

(** Modelled from the spec: "a feature tagged as belonging only to a
    deprecated dialect" is supported by the deprecated profile and by no
    other; the remaining ("relatively new", says the docstring of
    [get_features_used]) features are supported by the later profile only. *)
Definition VERSION_TO_FEATURES (version : TargetVersion) : gset Feature :=
  match version with
  | PY27 => list_to_set (filter (fun f => python2_only f = true) Feature_all)
  | PY36 =>
      {[ UNICODE_LITERALS; F_STRINGS; NUMERIC_UNDERSCORES;
         TRAILING_COMMA_IN_CALL; TRAILING_COMMA_IN_DEF ]}
  end.

(** [black.nodes.STARS]. *)
Definition STARS : list NodeType := [Tok STAR; Tok DOUBLESTAR].

Definition is_simple_decorator_expression (_ : LN) : bool := true.

(** [supports_feature]: every target version has the feature. *)
Definition supports_feature (target_versions : gset TargetVersion) (feature : Feature)
  : bool :=
  bool_decide (set_Forall (fun version => feature ∈ VERSION_TO_FEATURES version)
                 target_versions).

(** The tree of [print f'x'] followed by a newline: a [print_stmt] in a
    [simple_stmt] under the root ([file_input], symbol 256 here). *)
Definition print_fstring_tree : LN :=
  Node (other_symbol 256)
    [ Node simple_stmt
        [ Node print_stmt [Leaf NAME "print"; Leaf STRING "f'x'"];
          Leaf NEWLINE PyChars.LF_str ];
      Leaf (OTHER_TOKEN 0) "" ].

(** The tree of [print 1]. *)
Definition print_tree : LN :=
  Node (other_symbol 256)
    [ Node simple_stmt
        [ Node print_stmt [Leaf NAME "print"; Leaf NUMBER "1"];
          Leaf NEWLINE PyChars.LF_str ];
      Leaf (OTHER_TOKEN 0) "" ].

(** The tree of a module made of a docstring, [from __future__ import
    annotations] and [x = 1]. *)
Definition future_module_tree : LN :=
  Node (other_symbol 256)
    [ Node simple_stmt
        [ Leaf STRING "'''doc'''"; Leaf NEWLINE PyChars.LF_str ];
      Node simple_stmt
        [ Node import_from
            [ Leaf NAME "from"; Leaf NAME "__future__"; Leaf NAME "import";
              Leaf NAME "annotations" ];
          Leaf NEWLINE PyChars.LF_str ];
      Node simple_stmt
        [ Node (other_symbol 290)
            [ Leaf NAME "x"; Leaf (OTHER_TOKEN 22) "="; Leaf NUMBER "1" ];
          Leaf NEWLINE PyChars.LF_str ];
      Leaf (OTHER_TOKEN 0) "" ].

(** A parser that knows three source texts and rejects everything else. *)
Definition lib2to3_parse (src : string) (_ : gset TargetVersion) : result LN :=
  if bool_decide (src = "print f'x'" +:+ PyChars.LF_str) then Ok print_fstring_tree
  else if bool_decide (src = "print 1" +:+ PyChars.LF_str) then Ok print_tree
  else if bool_decide (src = "'''doc'''" +:+ PyChars.LF_str
                             +:+ "from __future__ import annotations" +:+ PyChars.LF_str
                             +:+ "x = 1" +:+ PyChars.LF_str)
  then Ok future_module_tree
  else Raise (InvalidInput "Cannot parse: 1:0").

Definition Mode : Type := Mode (TargetVersion := TargetVersion).

(** [Mode()] with nothing pinned. *)
Definition default_mode : Mode :=
  {| target_versions := ∅; line_length := 88; string_normalization := true;
     is_pyi := false |}.

Definition py36_mode : Mode :=
  {| target_versions := {[PY36]}; line_length := 88; string_normalization := true;
     is_pyi := false |}.

(** Lines are their text; every top-level statement is one line made of its
    leaves separated by spaces; no blank lines, no splitting. *)
Definition Line : Type := string.

Fixpoint leaves (n : LN) : list string :=
  match n with
  | Leaf _ v => [v]
  | Node _ ch => flat_map leaves ch
  end.

Definition LineGenerator_visit (_ : Mode) (_ : bool) (node : LN) : list Line :=
  (fun stmt => PyStr.join (leaves stmt)) <$> children node.

Definition normalize_fmt_off (node : LN) : LN := node.
Definition Line_new (_ : Mode) : Line := EmptyString.
Definition Line_str (line : Line) : string := line.
Definition EmptyLineTracker : Type := unit.
Definition EmptyLineTracker_new (_ : bool) : EmptyLineTracker := tt.
Definition maybe_empty_lines (elt : EmptyLineTracker) (_ : Line)
  : (nat * nat) * EmptyLineTracker := ((0%nat, 0%nat), elt).
Definition transform_line (line : Line) (_ : Mode) (_ : gset Feature) : list Line :=
  [line].

Definition format_str : string -> Mode -> result (list string * FileContent) :=
  format_str PY27 VERSION_TO_FEATURES is_simple_decorator_expression STARS
    lib2to3_parse normalize_fmt_off supports_feature
    Line Line_new Line_str LineGenerator_visit
    EmptyLineTracker EmptyLineTracker_new maybe_empty_lines transform_line.

Definition print_source : string := "print 1" +:+ PyChars.LF_str.
Definition print_fstring_source : string := "print f'x'" +:+ PyChars.LF_str.
Definition unparsable_source : string := "print 1 2" +:+ PyChars.LF_str.

(** A codec table with no encoding declarations and one-byte characters. *)
Definition find_cookie (_ : bool) (_ : bytes) : result (option Encoding) := Ok None.
Definition decode (_ : Encoding) (b : bytes) : result string :=
  Ok (string_of_list_byte b).

(** The bytes of [a], CR, LF, [b], CR, LF. *)
Definition crlf_source : bytes :=
  [Byte.x61; Byte.x0d; Byte.x0a; Byte.x62; Byte.x0d; Byte.x0a].

End Sample.

(** ** Vocabulary of the statements below *)

(** A NUMBER text that begins with a zero followed by a digit, the shape of a
    Python 2 octal literal such as [0123]. *)
Definition leading_zero_digit (text : string) : bool :=
  match text with
  | String c (String d _) => bool_decide (c = "0"%char) && PyStr.isdigit d
  | _ => false
  end.

(** A text made up entirely of the character [0]. *)
Definition all_zeros (text : string) : bool :=
  PyStr.all (fun char => bool_decide (char = "0"%char)) text.

(** The character [c] appears in [s]. *)
Definition has_char (c : ascii) (s : string) : Prop :=
  c ∈ list_ascii_of_string s.

(** A statement that is nothing but a string: a [simple_stmt] made of a STRING
    leaf and a NEWLINE leaf (the shape of a module docstring). *)
Definition is_docstring (stmt : LN) : bool :=
  match stmt with
  | Node simple_stmt [Leaf STRING _; Leaf NEWLINE _] => true
  | _ => false
  end.

(** A top-level line whose first small statement is [from __future__ import
    ...]: what follows the [import] keyword of that statement, [None] for any
    other line.  As in the source, only the first small statement of the line
    is looked at; what comes after a [;] on the same line plays no part. *)
Definition future_import_targets (stmt : LN) : option (list LN) :=
  match stmt with
  | Node simple_stmt (Node import_from (_ :: Leaf _ module :: after) :: _) =>
      if bool_decide (module = "__future__") then Some (drop 1 after) else None
  | _ => None
  end.

(** A line the scan goes past: a bare string on a line of its own, or a line
    whose first small statement is a [__future__] import. *)
Definition leading (stmt : LN) : Prop :=
  is_docstring stmt = true ∨ is_Some (future_import_targets stmt).

(** What the grammar gives every line: a [simple_stmt] has a first child,
    and an [import_from] has a module after its [from] keyword. *)
Definition well_formed_stmt (stmt : LN) : bool :=
  match stmt with
  | Node simple_stmt [] => false
  | Node simple_stmt (Node import_from ch :: _) => (2 <=? length ch)%nat
  | _ => true
  end.

(** The names the scan takes from one line: those the first small statement
    of the line imports from [__future__]. *)
Definition imported_names (stmt : LN) : result (list string) :=
  match future_import_targets stmt with
  | Some targets => get_imports_from_children targets
  | None => Ok []
  end.

(** The names the scan takes from a whole run of lines, as a set. *)
Definition collected (run : list LN) : result (gset string) :=
  names ← traverse imported_names run; Ok (list_to_set (List.concat names)).

(** The first line of a source: what [readline] returns on the fresh buffer. *)
Definition first_line (src : bytes) : bytes := (readline src).1.

(** [b] ends with the two bytes CR LF. *)
Definition ends_with_crlf (b : bytes) : Prop := ∃ before, b = (before ++ [CR; LF])%list.

(** A STRING token whose first two characters are one of the f-string heads
    the source lists. *)
Definition f_string_head (text : string) : bool :=
  bool_decide (PyStr.take 2 text ∈ [f_dq; F_dq; "f'"; "F'"; "rf"; "fr"; "RF"; "FR"]).

(** The last child is a comma. *)
Definition trailing_comma (ch : list LN) : bool :=
  from_option (fun l => bool_decide (type l = Tok COMMA)) false (last ch).

(** A child that is a star, or an [argument] with a star among its children. *)
Definition starred (STARS : list NodeType) (c : LN) : bool :=
  bool_decide (type c ∈ STARS)
  || bool_decide (type c = Sym argument)
     && existsb (fun argch => bool_decide (type argch ∈ STARS)) (children c).

(** A clause of at least four children whose last but one is a comma, as in
    [except Exception, err] and [raise Exception, "msg"]. *)
Definition comma_style (ch : list LN) : bool :=
  (4 <=? length ch)%nat
  && from_option (fun c => bool_decide (type c = Tok COMMA)) false (last_but_one ch).

(** [imports_name name target]: the import target brings in [name]: a NAME
    leaf with that text, an [import_as_name] whose first child is such a
    leaf (the name before [as]), or an [import_as_names] holding such a
    target. *)
Inductive imports_name (name : string) : LN -> Prop :=
  | imports_leaf : imports_name name (Leaf NAME name)
  | imports_as rest : imports_name name (Node import_as_name (Leaf NAME name :: rest))
  | imports_nested ch c :
      c ∈ ch -> imports_name name c -> imports_name name (Node import_as_names ch).

(** The import targets the generator accepts: any leaf, an [import_as_name]
    that starts with a NAME leaf, an [import_as_names] of accepted targets. *)
Fixpoint accepted_target (c : LN) : bool :=
  match c with
  | Leaf _ _ => true
  | Node import_as_name (Leaf NAME _ :: _) => true
  | Node import_as_names ch => forallb accepted_target ch
  | Node _ _ => false
  end.

(** ** The parser's outcome and the whole text, for the statement about
    parse failures *)

(** Modelled from the spec: what the grammar parser, which is not part of the
    sources, hands back: "a SyntaxNode tree", or it "fail[s] with a
    SyntaxError identifying the offending line/column". *)
Inductive ParseOutcome : Type :=
  | Parsed (tree : LN)
  | Rejected (lineno column : nat) (faulty_line : string).

(** Modelled from the spec: [lib2to3_parse] over such a parser: the tree, or
    the syntax error raised with the position the parser identified. *)
Definition parse_with {TargetVersion : Type} `{Countable TargetVersion}
    (parser : string -> gset TargetVersion -> ParseOutcome)
    (src : string) (target_versions : gset TargetVersion) : result LN :=
  match parser src target_versions with
  | Parsed tree => Ok tree
  | Rejected lineno column faulty_line =>
      Raise (SyntaxErrorAt lineno column faulty_line)
  end.

(** What the grammar gives a top-level line, as far as the scan for future
    imports reads it: a [simple_stmt] has a first child; an [import_from] in
    first place has a module after [from] and, after [import], only targets
    of the accepted shapes (names, [import_as_name], [import_as_names],
    parentheses, commas, a star). *)
Definition grammar_shaped (stmt : LN) : bool :=
  match stmt with
  | Node simple_stmt [] => false
  | Node simple_stmt (Node import_from ich :: _) =>
      (2 <=? length ich)%nat && forallb accepted_target (drop 3 ich)
  | _ => true
  end.

Section WholeText.

Context {TargetVersion : Type} `{Finite TargetVersion}.
Variable Line : Type.
Variable Line_new : Mode (TargetVersion := TargetVersion) -> Line.
Variable Line_str : Line -> string.
Variable EmptyLineTracker : Type.
Variable maybe_empty_lines : EmptyLineTracker -> Line -> (nat * nat) * EmptyLineTracker.
Variable transform_line :
  Line -> Mode (TargetVersion := TargetVersion) -> gset Feature -> list Line.

(** The text of every line of a stream, in order: for each logical line, the
    blank lines asked for after the line before it, the blank lines asked
    for before it, then the text of each line its transformation gives;
    nothing is left out and nothing else is put in. *)
Fixpoint whole_text (mode : Mode) (features : gset Feature)
    (elt : EmptyLineTracker) (after : nat) (lines : list Line) : string :=
  match lines with
  | [] => EmptyString
  | current_line :: later =>
      let '((before, after'), elt') := maybe_empty_lines elt current_line in
      PyStr.repeat (Line_str (Line_new mode)) after
      +:+ PyStr.repeat (Line_str (Line_new mode)) before
      +:+ PyStr.join (Line_str <$> transform_line current_line mode features)
      +:+ whole_text mode features elt' after' later
  end.

End WholeText.

(** ** Further concrete inputs *)

Module Fixture.

(** A module whose first statement imports, from [__future__], a target that
    is neither a name nor an [import_as_name(s)] node. *)
Definition broken_import_tree : LN :=
  Node (other_symbol 256)
    [ Node simple_stmt
        [ Node import_from
            [ Leaf NAME "from"; Leaf NAME "__future__"; Leaf NAME "import";
              Node (other_symbol 300) [] ];
          Leaf NEWLINE PyChars.LF_str ] ].

(** A parser that hands back that tree for any text. *)
Definition lib2to3_parse (_ : string) (_ : gset Sample.TargetVersion) : result LN :=
  Ok broken_import_tree.

(** [print_tree] without its end marker, and with one more statement. *)
Definition one_statement : LN :=
  Node (other_symbol 256)
    [ Node simple_stmt
        [ Node print_stmt [Leaf NAME "print"; Leaf NUMBER "1"];
          Leaf NEWLINE PyChars.LF_str ] ].

Definition two_statements : LN :=
  Node (other_symbol 256)
    [ Node simple_stmt
        [ Node print_stmt [Leaf NAME "print"; Leaf NUMBER "1"];
          Leaf NEWLINE PyChars.LF_str ];
      Node simple_stmt
        [ Node print_stmt [Leaf NAME "print"; Leaf NUMBER "2"];
          Leaf NEWLINE PyChars.LF_str ] ].

(** The bytes of [x], LF. *)
Definition lf_source : bytes := [Byte.x78; Byte.x0a].

(** The text of [print 1] and [print 2], one per line. *)
Definition two_prints_source : string :=
  "print 1" +:+ PyChars.LF_str +:+ "print 2" +:+ PyChars.LF_str.

(** A parser with a positioned failure: it knows that text and rejects any
    other at line 1, column 0. *)
Definition parser (src : string) (_ : gset Sample.TargetVersion) : ParseOutcome :=
  if bool_decide (src = two_prints_source) then Parsed two_statements
  else Rejected 1 0 src.

(** [from __future__ import name]. *)
Definition future_import (name : string) : LN :=
  Node import_from
    [Leaf NAME "from"; Leaf NAME "__future__"; Leaf NAME "import"; Leaf NAME name].

(** The tree of the one-line module
    [from __future__ import annotations; from __future__ import division]:
    both imports are small statements of the same [simple_stmt], with the
    semicolon (token 13) between them. *)
Definition two_imports_one_line : LN :=
  Node (other_symbol 256)
    [ Node simple_stmt
        [ future_import "annotations"; Leaf (OTHER_TOKEN 13) ";";
          future_import "division"; Leaf NEWLINE PyChars.LF_str ];
      Leaf (OTHER_TOKEN 0) "" ].

(** The tree of the two-line module
    [from __future__ import annotations; x = 1] and
    [from __future__ import division]. *)
Definition import_then_assignment : LN :=
  Node (other_symbol 256)
    [ Node simple_stmt
        [ future_import "annotations"; Leaf (OTHER_TOKEN 13) ";";
          Node (other_symbol 292)
            [Leaf NAME "x"; Leaf (OTHER_TOKEN 22) "="; Leaf NUMBER "1"];
          Leaf NEWLINE PyChars.LF_str ];
      Node simple_stmt [future_import "division"; Leaf NEWLINE PyChars.LF_str];
      Leaf (OTHER_TOKEN 0) "" ].

End Fixture.

(** * Properties *)

(** ** Strings *)

Lemma lstrip_idemp (s : string) : PyStr.lstrip (PyStr.lstrip s) = PyStr.lstrip s.
Proof.
  induction s as [|c s IH]; [reflexivity|].
  cbn [PyStr.lstrip]. destruct (PyStr.isspace c) eqn:Hc; [exact IH|].
  cbn [PyStr.lstrip]. rewrite Hc. reflexivity.
Qed.

Lemma lstrip_head (s : string) :
  match PyStr.lstrip s with
  | String c _ => PyStr.isspace c = false
  | EmptyString => True
  end.
Proof.
  induction s as [|c s IH]; [exact I|].
  cbn [PyStr.lstrip]. destruct (PyStr.isspace c) eqn:Hc; [exact IH|exact Hc].
Qed.

(** ** The traversal *)

Lemma elem_of_pre_order_from_occurs (v : Visited) (parent : option Symbol) (t : LN) :
  v ∈ pre_order_from parent t -> occurs v.2 t.
Proof.
  revert parent.
  induction t as [ty val|s ch IH] using
    (fix ind (P : LN -> Prop)
         (HL : ∀ ty val, P (Leaf ty val))
         (HN : ∀ s ch, Forall P ch -> P (Node s ch)) (t : LN) {struct t} : P t :=
       match t with
       | Leaf ty val => HL ty val
       | Node s ch =>
           HN s ch
             ((fix all (l : list LN) : Forall P l :=
                 match l with
                 | [] => Forall_nil_2 P
                 | c :: l' => Forall_cons_2 P c l' (ind P HL HN c) (all l')
                 end) ch)
       end).
  - intros parent Hin. cbn in Hin. apply list_elem_of_singleton in Hin.
    subst v. constructor.
  - intros parent Hin. cbn [pre_order_from] in Hin.
    apply elem_of_cons in Hin as [->|Hin]; [constructor|].
    apply list_elem_of_In, in_flat_map in Hin as (c & Hc & Hin).
    apply list_elem_of_In in Hc, Hin.
    rewrite Forall_forall in IH.
    apply occurs_below with c; [exact Hc|]. eapply IH; eassumption.
Qed.

Lemma occurs_elem_of_pre_order_from (n t : LN) :
  occurs n t -> ∀ parent, ∃ p, (p, n) ∈ pre_order_from parent t.
Proof.
  induction 1 as [|s ch c Hc _ IH]; intros parent.
  - exists parent. destruct n; cbn; apply elem_of_cons; left; reflexivity.
  - destruct (IH (Some s)) as [p Hp]. exists p.
    cbn [pre_order_from]. apply elem_of_cons; right.
    apply list_elem_of_In, in_flat_map. exists c.
    split; apply list_elem_of_In; assumption.
Qed.

(** Every node of the tree is met by the traversal, and nothing else is. *)
Lemma occurs_pre_order (n root : LN) :
  occurs n root <-> ∃ p, (p, n) ∈ pre_order root.
Proof.
  split.
  - intros Hocc. exact (occurs_elem_of_pre_order_from n root Hocc None).
  - intros [p Hp]. exact (elem_of_pre_order_from_occurs (p, n) None root Hp).
Qed.

(** ** The feature set is the union of what each visit adds *)

Lemma foldl_union_acc {A : Type} (g : gset Feature -> A -> gset Feature) (l : list A) :
  (∀ acc x, g acc x = acc ∪ g ∅ x) ->
  ∀ acc, foldl g acc l = acc ∪ foldl g ∅ l.
Proof.
  intros Hg. induction l as [|x l IH]; intros acc; cbn [foldl].
  - set_solver.
  - rewrite IH, (IH (g ∅ x)), (Hg acc x). set_solver.
Qed.

Lemma elem_of_foldl_union {A : Type} (g : gset Feature -> A -> gset Feature)
    (l : list A) (f : Feature) :
  (∀ acc x, g acc x = acc ∪ g ∅ x) ->
  ∀ acc, f ∈ foldl g acc l <-> f ∈ acc ∨ ∃ x, x ∈ l ∧ f ∈ g ∅ x.
Proof.
  intros Hg. induction l as [|x l IH]; intros acc; cbn [foldl].
  - split; [auto|]. intros [?|(x & Hx & _)]; [assumption|]. inversion Hx.
  - rewrite IH, (Hg acc x). split.
    + intros [[?|?]%elem_of_union|(y & Hy & ?)]; eauto.
      * right. exists x. split; [left|assumption].
      * right. exists y. split; [right; assumption|assumption].
    + intros [?|(y & Hy & ?)]; [left; set_solver|].
      apply elem_of_cons in Hy as [->|Hy]; [left; set_solver|eauto].
Qed.

Section FeatureDetectionFacts.

Variable is_simple_decorator_expression : LN -> bool.
Variable STARS : list NodeType.

Local Abbreviation visit_node := (visit is_simple_decorator_expression STARS).
Local Abbreviation features_used :=
  (get_features_used is_simple_decorator_expression STARS).

Lemma star_features_union (feature : Feature) (chs : list LN) (acc : gset Feature) :
  star_features STARS feature chs acc = acc ∪ star_features STARS feature chs ∅.
Proof.
  unfold star_features. apply foldl_union_acc. clear acc.
  intros acc ch.
  destruct (bool_decide (type ch = Sym argument)).
  - rewrite foldl_union_acc.
    2:{ intros a x. destruct (bool_decide (type x ∈ STARS)); set_solver. }
    symmetry. rewrite foldl_union_acc.
    2:{ intros a x. destruct (bool_decide (type x ∈ STARS)); set_solver. }
    destruct (bool_decide (type ch ∈ STARS)); set_solver.
  - destruct (bool_decide (type ch ∈ STARS)); set_solver.
Qed.

Lemma visit_union (acc : gset Feature) (v : Visited) :
  visit_node acc v = acc ∪ visit_node ∅ v.
Proof.
  destruct v as [parent n]. unfold visit.
  repeat (case_match; try (rewrite star_features_union; reflexivity); try set_solver).
Qed.

Lemma elem_of_get_features_used (f : Feature) (node : LN) :
  f ∈ features_used node <-> ∃ v, v ∈ pre_order node ∧ f ∈ visit_node ∅ v.
Proof.
  unfold get_features_used.
  rewrite (elem_of_foldl_union visit_node (pre_order node) f visit_union).
  split; [intros [H|H]; [set_solver|exact H]|auto].
Qed.

End FeatureDetectionFacts.

(** ** NUMBER tokens *)

Lemma leading_zero_digit_spec (text : string) :
  (2 <=? String.length text)%nat
  && bool_decide (PyStr.get 0 text = Some "0"%char)
  && from_option PyStr.isdigit false (PyStr.get 1 text)
  = leading_zero_digit text.
Proof.
  destruct text as [|c [|d text]]; cbn; try reflexivity.
  f_equal. apply bool_decide_ext. split; congruence.
Qed.

Lemma all_drop (p : ascii -> bool) (k : nat) (s : string) :
  PyStr.all p s = true -> PyStr.all p (PyStr.drop k s) = true.
Proof.
  revert s. induction k as [|k IH]; intros [|c s] Hall; cbn; try assumption.
  apply IH. cbn in Hall. apply andb_true_iff in Hall. tauto.
Qed.

Lemma all_zeros_no_suffix (text : string) (c : ascii) :
  all_zeros text = true -> c ≠ "0"%char ->
  PyStr.endswith text (String c EmptyString) = false.
Proof.
  intros Hall Hc. unfold PyStr.endswith. apply bool_decide_eq_false_2. intros Heq.
  apply (all_drop _ (String.length text - String.length (String c EmptyString))) in Hall.
  rewrite Heq in Hall. cbn in Hall. rewrite andb_true_r in Hall.
  apply bool_decide_eq_true_1 in Hall. contradiction.
Qed.

Lemma all_zeros_no_underscore (text : string) :
  all_zeros text = true -> PyStr.contains "_" text = false.
Proof.
  unfold all_zeros. induction text as [|c text IH]; intros Hall; [reflexivity|].
  cbn in Hall. apply andb_true_iff in Hall as [Hc Hall].
  apply bool_decide_eq_true_1 in Hc. subst c.
  cbn. exact (IH Hall).
Qed.

Section NumberTokens.

Variable is_simple_decorator_expression : LN -> bool.
Variable STARS : list NodeType.

Local Abbreviation visit_node := (visit is_simple_decorator_expression STARS).
Local Abbreviation features_used :=
  (get_features_used is_simple_decorator_expression STARS).

(** The NUMBER branch of the chain, on its own. *)
Lemma visit_number (features : gset Feature) (parent : option Symbol) (text : string) :
  visit_node features (parent, Leaf NUMBER text) =
    if PyStr.contains "_" text then {[NUMERIC_UNDERSCORES]} ∪ features
    else if PyStr.endswith text "L" || PyStr.endswith text "l" then
      {[LONG_INT_LITERAL]} ∪ features
    else if leading_zero_digit text then
      if negb (all_zeros text) then {[OCTAL_INT_LITERAL]} ∪ features else features
    else features.
Proof.
  unfold visit. cbn [type value].
  rewrite leading_zero_digit_spec. reflexivity.
Qed.

Lemma star_features_bound (feature : Feature) (chs : list LN) (acc : gset Feature) :
  star_features STARS feature chs acc ⊆ {[feature]} ∪ acc.
Proof.
  unfold star_features. revert acc.
  induction chs as [|ch chs IH]; intros acc; cbn [foldl]; [set_solver|].
  etrans; [apply IH|].
  assert (Hinner : ∀ (l : list LN) (a : gset Feature),
    foldl (fun (features : gset Feature) (argch : LN) =>
             if bool_decide (type argch ∈ STARS) then {[feature]} ∪ features
             else features) a l ⊆ {[feature]} ∪ a).
  { induction l as [|x l IHl]; intros a; cbn [foldl]; [set_solver|].
    etrans; [apply IHl|]. destruct (bool_decide (type x ∈ STARS)); set_solver. }
  destruct (bool_decide (type ch = Sym argument)).
  - specialize (Hinner (children ch)
      (if bool_decide (type ch ∈ STARS) then {[feature]} ∪ acc else acc)).
    destruct (bool_decide (type ch ∈ STARS)); set_solver.
  - destruct (bool_decide (type ch ∈ STARS)); set_solver.
Qed.

(** The octal tag is added by the NUMBER branch and by no other. *)
Lemma octal_from_visit (v : Visited) :
  OCTAL_INT_LITERAL ∈ visit_node ∅ v ->
  ∃ text, v.2 = Leaf NUMBER text
          ∧ leading_zero_digit text = true ∧ all_zeros text = false.
Proof.
  destruct v as [parent [t text|s ch]]; cbn [snd].
  - destruct (decide (t = NUMBER)) as [->|Hne].
    + rewrite visit_number. intros Hin. exists text. split; [reflexivity|].
      destruct (PyStr.contains "_" text); [set_solver|].
      destruct (PyStr.endswith text "L" || PyStr.endswith text "l"); [set_solver|].
      destruct (leading_zero_digit text); [|set_solver].
      destruct (all_zeros text); [set_solver|]. split; reflexivity.
    + unfold visit. cbn [type value children].
      intros Hin. exfalso. revert Hin.
      repeat (case_match; try set_solver); try congruence.
      all: try (apply bool_decide_eq_true_1 in H; congruence).
      all: try (apply bool_decide_eq_true_1 in H0; congruence).
  - unfold visit. cbn [type value children].
    intros Hin. exfalso. revert Hin.
    repeat (case_match; try set_solver).
    all: intros Hin; apply star_features_bound in Hin; set_solver.
Qed.

End NumberTokens.

(** C4 as stated fails: a NUMBER token of the leading-zero shape does not get
    the octal tag when it ends in [L] (the long-integer branch comes first),
    when it is all zeros, or when it holds an underscore. *)
Lemma octal_shape_not_always_tagged :
  (leading_zero_digit "0123L" = true
   ∧ occurs (Leaf NUMBER "0123L") (Leaf NUMBER "0123L")
   ∧ OCTAL_INT_LITERAL ∉
       get_features_used Sample.is_simple_decorator_expression Sample.STARS
         (Leaf NUMBER "0123L"))
  ∧ (leading_zero_digit "0000" = true
     ∧ OCTAL_INT_LITERAL ∉
         get_features_used Sample.is_simple_decorator_expression Sample.STARS
           (Leaf NUMBER "0000"))
  ∧ (leading_zero_digit "01_7" = true
     ∧ OCTAL_INT_LITERAL ∉
         get_features_used Sample.is_simple_decorator_expression Sample.STARS
           (Leaf NUMBER "01_7")).
Proof.
  repeat split; try reflexivity; try constructor.
  all: apply (bool_decide_unpack _); vm_compute; exact I.
Qed.

(** C4 (amended): in every tree, a NUMBER token with an underscore in its text
    puts [NUMERIC_UNDERSCORES] in the feature set; a NUMBER token with no
    underscore and no [L]/[l] suffix, of the leading-zero-then-digit shape and
    not all zeros, puts [OCTAL_INT_LITERAL] in it.  The two literals of the
    scenario, [10_000] and [0123], are instances. *)
Theorem numeric_literal_features
    (is_simple_decorator_expression : LN -> bool) (STARS : list NodeType)
    (node : LN) (text : string) :
  occurs (Leaf NUMBER text) node ->
  (PyStr.contains "_" text = true ->
   NUMERIC_UNDERSCORES ∈ get_features_used is_simple_decorator_expression STARS node)
  ∧ (leading_zero_digit text = true ->
     PyStr.contains "_" text = false ->
     PyStr.endswith text "L" = false ->
     PyStr.endswith text "l" = false ->
     all_zeros text = false ->
     OCTAL_INT_LITERAL ∈ get_features_used is_simple_decorator_expression STARS node).
Proof.
  intros Hocc. apply occurs_pre_order in Hocc as [parent Hin].
  split.
  - intros Hus. apply elem_of_get_features_used.
    exists (parent, Leaf NUMBER text). split; [exact Hin|].
    rewrite visit_number, Hus. set_solver.
  - intros Hshape Hus HL Hl Hz. apply elem_of_get_features_used.
    exists (parent, Leaf NUMBER text). split; [exact Hin|].
    rewrite visit_number, Hus, HL, Hl, Hshape, Hz. cbn. set_solver.
Qed.

Lemma numeric_literal_features_witness :
  NUMERIC_UNDERSCORES ∈
    get_features_used Sample.is_simple_decorator_expression Sample.STARS
      (Node (other_symbol 290)
         [Leaf NAME "x"; Leaf (OTHER_TOKEN 22) "="; Leaf NUMBER "10_000"])
  ∧ OCTAL_INT_LITERAL ∈
      get_features_used Sample.is_simple_decorator_expression Sample.STARS
        (Node (other_symbol 290)
           [Leaf NAME "x"; Leaf (OTHER_TOKEN 22) "="; Leaf NUMBER "0123"]).
Proof.
  split.
  - refine (proj1 (numeric_literal_features _ _ _ "10_000" _) _).
    + eapply occurs_below; [|constructor]. set_solver.
    + reflexivity.
  - refine (proj2 (numeric_literal_features _ _ _ "0123" _) _ _ _ _ _);
      try reflexivity.
    eapply occurs_below; [|constructor]. set_solver.
Defined.

(** C10: visiting a NUMBER token made up entirely of zeros leaves the feature
    set as it was, and whenever [OCTAL_INT_LITERAL] is in the feature set of a
    tree, the tree holds a NUMBER token of the leading-zero shape that is not
    all zeros.  So [0000] never brings the octal tag. *)
Theorem all_zeros_not_octal
    (is_simple_decorator_expression : LN -> bool) (STARS : list NodeType)
    (node : LN) :
  (∀ (parent : option Symbol) (text : string) (features : gset Feature),
     all_zeros text = true ->
     visit is_simple_decorator_expression STARS features (parent, Leaf NUMBER text)
     = features)
  ∧ ((∀ text, occurs (Leaf NUMBER text) node -> leading_zero_digit text = true ->
              all_zeros text = true) ->
     OCTAL_INT_LITERAL ∉ get_features_used is_simple_decorator_expression STARS node).
Proof.
  split.
  - intros parent text features Hz. rewrite visit_number.
    rewrite (all_zeros_no_underscore text Hz).
    rewrite !(all_zeros_no_suffix text _ Hz) by discriminate.
    rewrite Hz. cbn. destruct (leading_zero_digit text); reflexivity.
  - intros Hall Hin. apply elem_of_get_features_used in Hin as (v & Hv & Hin).
    apply octal_from_visit in Hin as (text & Hleaf & Hshape & Hz).
    destruct v as [parent n]. cbn in Hleaf. subst n.
    assert (Hocc : occurs (Leaf NUMBER text) node).
    { apply occurs_pre_order. exists parent. exact Hv. }
    rewrite (Hall text Hocc Hshape) in Hz. discriminate.
Qed.

Lemma all_zeros_not_octal_witness :
  visit Sample.is_simple_decorator_expression Sample.STARS ∅ (None, Leaf NUMBER "0000") = ∅
  ∧ OCTAL_INT_LITERAL ∉
      get_features_used Sample.is_simple_decorator_expression Sample.STARS
        (Node (other_symbol 290)
           [Leaf NAME "x"; Leaf (OTHER_TOKEN 22) "="; Leaf NUMBER "0000"]).
Proof.
  split.
  - apply (proj1 (all_zeros_not_octal _ _ (Leaf NUMBER "0000"))). reflexivity.
  - apply (proj2 (all_zeros_not_octal _ _ _)).
    intros text Hocc _. inversion Hocc as [|s ch c Hc Hocc']; subst.
    repeat (apply elem_of_cons in Hc as [->|Hc]);
      try (inversion Hocc'; subst; reflexivity).
    inversion Hc.
Defined.

(** ** The scan of get_future_imports *)

Lemma loop_stops (stop : LN) (rest : list LN) (imports : gset string) :
  well_formed_stmt stop = true ->
  is_docstring stop = false ->
  future_import_targets stop = None ->
  future_imports_loop (stop :: rest) imports = Ok imports.
Proof.
  intros Hwf Hdoc Hfut. cbn [future_imports_loop].
  destruct stop as [t v|s ch]; [reflexivity|].
  destruct (decide (s = simple_stmt)) as [->|Hs].
  2:{ cbn [type]. rewrite bool_decide_eq_false_2 by congruence. reflexivity. }
  cbn [type children negb]. rewrite bool_decide_eq_true_2 by reflexivity. cbn [negb].
  destruct ch as [|first tl]; [discriminate Hwf|]. cbn [lookup list_lookup].
  destruct first as [t v|s' ch']; cbn [is_leaf].
  - destruct (decide (t = STRING)) as [->|Ht].
    2:{ cbn [type]. rewrite (bool_decide_eq_false_2 (Tok t = Tok STRING)) by congruence.
        rewrite andb_false_r. reflexivity. }
    destruct tl as [|second [|third tl]]; try reflexivity.
    destruct second as [t2 v2|s2 ch2]; [|reflexivity].
    destruct (decide (t2 = NEWLINE)) as [->|Ht2]; [discriminate Hdoc|].
    cbn [length type children lookup list_lookup from_option].
    rewrite (bool_decide_eq_false_2 (Tok t2 = Tok NEWLINE)) by congruence.
    rewrite andb_false_r. reflexivity.
  - destruct (decide (s' = import_from)) as [->|Hs'].
    2:{ cbn [type]. rewrite bool_decide_eq_false_2 by congruence. reflexivity. }
    cbn [type children]. rewrite bool_decide_eq_true_2 by reflexivity.
    destruct ch' as [|kw [|module after]]; try discriminate Hwf.
    cbn [lookup list_lookup].
    destruct module as [tm vm|sm chm]; [|reflexivity].
    cbn [is_leaf value negb orb]. cbn in Hfut.
    destruct (bool_decide (vm = "__future__")); [discriminate Hfut|reflexivity].
Qed.

Lemma loop_leading (stmt : LN) (rest : list LN) (imports : gset string) :
  leading stmt ->
  future_imports_loop (stmt :: rest) imports =
    names ← imported_names stmt;
    future_imports_loop rest (imports ∪ list_to_set names).
Proof.
  intros [Hdoc|[targets Hfut]].
  - destruct stmt as [|s [|[t1 v1|] [|[t2 v2|] [|]]]]; try discriminate Hdoc;
      destruct s; try discriminate Hdoc;
      destruct t1; try discriminate Hdoc; destruct t2; try discriminate Hdoc.
    cbn. f_equal. set_solver.
  - unfold imported_names. rewrite Hfut.
    destruct stmt as [|s [|[|s1 [|kw [|[tm vm|] after]]] tl]]; try discriminate Hfut;
      destruct s; try discriminate Hfut; destruct s1; try discriminate Hfut.
    cbn in Hfut. cbn -[get_imports_from_children].
    destruct (bool_decide (vm = "__future__")); [|discriminate Hfut].
    injection Hfut as <-. cbn -[get_imports_from_children].
    destruct after; reflexivity.
Qed.

Lemma loop_run (run tail : list LN) (imports : gset string) :
  Forall leading run ->
  future_imports_loop (run ++ tail)%list imports =
    names ← traverse imported_names run;
    future_imports_loop tail (imports ∪ list_to_set (List.concat names)).
Proof.
  intros Hrun. revert imports.
  induction Hrun as [|stmt run Hstmt _ IH]; intros imports.
  - cbn. f_equal. set_solver.
  - change ((stmt :: run) ++ tail)%list with (stmt :: (run ++ tail))%list.
    rewrite (loop_leading stmt _ imports Hstmt).
    cbn [traverse]. destruct (imported_names stmt) as [names|e]; [|reflexivity].
    cbn [mbind result_bind]. rewrite IH.
    fold (traverse imported_names).
    destruct (traverse imported_names run) as [more|e]; [|reflexivity].
    cbn. f_equal. rewrite list_to_set_app_L. set_solver.
Qed.

(** X20: [get_future_imports] judges every top-level line by its first small
    statement.  Over a run of lines that are a bare string or start with a
    [__future__] import, followed by a line that does neither, it returns the
    names the first statement of each line of the run imports; the line that
    stops the scan and everything after it do not matter.  For a docstring
    line, [from __future__ import annotations] and any such other line the
    result is exactly the set holding [annotations]. *)
Theorem get_future_imports_leading_run
    (root : Symbol) (run : list LN) (stop : LN) (rest : list LN) :
  Forall leading run ->
  well_formed_stmt stop = true ->
  is_docstring stop = false ->
  future_import_targets stop = None ->
  get_future_imports (Node root (run ++ stop :: rest)) = collected run
  ∧ get_future_imports (Node root run) = collected run
  ∧ (∀ (doc nl nl' : string) (kw_from kw_import : LN),
       run = [ Node simple_stmt [Leaf STRING doc; Leaf NEWLINE nl];
               Node simple_stmt
                 [ Node import_from
                     [ kw_from; Leaf NAME "__future__"; kw_import;
                       Leaf NAME "annotations" ];
                   Leaf NEWLINE nl' ] ] ->
       get_future_imports (Node root (run ++ stop :: rest)) = Ok {["annotations"]}).
Proof.
  intros Hrun Hwf Hdoc Hfut.
  assert (Hstop : get_future_imports (Node root (run ++ stop :: rest)) = collected run).
  { unfold get_future_imports, collected. cbn [children].
    rewrite (loop_run run (stop :: rest) ∅ Hrun).
    destruct (traverse imported_names run) as [names|e]; [|reflexivity].
    cbn [mbind result_bind]. rewrite (loop_stops stop rest _ Hwf Hdoc Hfut).
    f_equal. set_solver. }
  split; [exact Hstop|]. split.
  - unfold get_future_imports, collected. cbn [children].
    rewrite <- (app_nil_r run) at 1.
    rewrite (loop_run run [] ∅ Hrun).
    destruct (traverse imported_names run) as [names|e]; [|reflexivity].
    cbn. f_equal. set_solver.
  - intros doc nl nl' kw_from kw_import ->. rewrite Hstop.
    unfold collected. cbn. f_equal; set_solver.
Qed.

Lemma get_future_imports_leading_run_witness :
  get_future_imports Sample.future_module_tree = Ok {["annotations"]}.
Proof.
  refine (proj2 (proj2 (get_future_imports_leading_run (other_symbol 256)
    [ Node simple_stmt [Leaf STRING "'''doc'''"; Leaf NEWLINE PyChars.LF_str];
      Node simple_stmt
        [ Node import_from
            [ Leaf NAME "from"; Leaf NAME "__future__"; Leaf NAME "import";
              Leaf NAME "annotations" ];
          Leaf NEWLINE PyChars.LF_str ] ]
    (Node simple_stmt
       [ Node (other_symbol 290)
           [ Leaf NAME "x"; Leaf (OTHER_TOKEN 22) "="; Leaf NUMBER "1" ];
         Leaf NEWLINE PyChars.LF_str ])
    [Leaf (OTHER_TOKEN 0) ""] _ _ _ _)) _ _ _ _ _ _).
  - apply Forall_cons_2; [left; reflexivity|].
    apply Forall_cons_2; [right; eexists; reflexivity|]. apply Forall_nil_2.
  - reflexivity.
  - reflexivity.
  - reflexivity.
  - reflexivity.
Defined.

(** ** Decoding *)

Lemma last2_crlf (b : bytes) : last2 b = [CR; LF] <-> ends_with_crlf b.
Proof.
  unfold last2, ends_with_crlf. split.
  - intros Hd. exists (take (length b - 2) b).
    rewrite <- Hd. symmetry. apply take_drop.
  - intros [before ->]. rewrite length_app. cbn [length].
    replace (length before + 2 - 2)%nat with (length before) by lia.
    apply drop_app_length.
Qed.

Lemma startswith_bom (b : bytes) :
  PyBytes.startswith b BOM_UTF8 = true -> b = (BOM_UTF8 ++ drop 3 b)%list.
Proof.
  destruct b as [|x [|y [|z b]]]; cbn; try discriminate.
  - rewrite !andb_false_r. discriminate.
  - rewrite !andb_false_r. discriminate.
  - intros Hb. apply andb_true_iff in Hb as [Hx Hb].
    apply andb_true_iff in Hb as [Hy Hb]. apply andb_true_iff in Hb as [Hz _].
    apply bool_decide_eq_true_1 in Hx, Hy, Hz. subst. reflexivity.
Qed.

(** Taking the BOM off a non-empty rest does not change whether the line ends
    in CR LF; a line that is just the BOM does not end in CR LF. *)
Lemma last2_after_bom (b : bytes) :
  last2 (BOM_UTF8 ++ b)%list = [CR; LF] <-> last2 b = [CR; LF].
Proof.
  destruct b as [|x [|y b]].
  - cbn. split; discriminate.
  - cbn. split; discriminate.
  - unfold last2. rewrite length_app.
    replace (length BOM_UTF8 + length (x :: y :: b) - 2)%nat
      with (length BOM_UTF8 + (length (x :: y :: b) - 2))%nat by (cbn; lia).
    rewrite drop_app_add'; reflexivity.
Qed.

Lemma startswith_empty (s : string) : PyStr.startswith s EmptyString = true.
Proof. destruct s; reflexivity. Qed.

Lemma replace_cr_free (s : string) :
  ¬ has_char PyChars.CR (replace (String PyChars.CR EmptyString) PyChars.LF_str s).
Proof.
  unfold replace, has_char. induction s as [|c s IH]; cbn.
  - intros Hin. inversion Hin.
  - rewrite startswith_empty, andb_true_r.
    destruct (decide (PyChars.CR = c)) as [<-|Hne].
    + rewrite bool_decide_eq_true_2 by reflexivity. cbn.
      intros Hin. apply elem_of_cons in Hin as [Heq|Hin]; [discriminate Heq|].
      exact (IH Hin).
    + rewrite bool_decide_eq_false_2 by assumption. cbn.
      intros Hin. apply elem_of_cons in Hin as [Heq|Hin]; [congruence|].
      exact (IH Hin).
Qed.

Section DecodingFacts.

Variable find_cookie : bool -> bytes -> result (option Encoding).
Variable decode : Encoding -> bytes -> result string.

(** The lines [detect_encoding] hands back start with the first line of the
    source, its BOM removed; there are none exactly when nothing is left. *)
Lemma detect_encoding_lines (src : bytes) (encoding : Encoding) (lines : list bytes) :
  detect_encoding find_cookie src = Ok (encoding, lines) ->
  let first :=
    if PyBytes.startswith (first_line src) BOM_UTF8 then drop 3 (first_line src)
    else first_line src in
  (first = [] ∧ lines = []) ∨ (first ≠ [] ∧ ∃ more, lines = first :: more).
Proof.
  unfold detect_encoding, first_line.
  destruct (readline src) as [line unread]. cbn [fst].
  set (first := if PyBytes.startswith line BOM_UTF8 then drop 3 line else line).
  case_bool_decide as Hempty.
  - intros [= <- <-]. left. split; [assumption|reflexivity].
  - intros Hres. right. split; [assumption|].
    destruct (find_cookie _ first) as [[enc|]|e]; cbn in Hres; try discriminate.
    + injection Hres as <- <-. eexists; reflexivity.
    + destruct (blank_re_match first); cbn in Hres.
      * destruct (readline unread) as [second unread'].
        case_bool_decide.
        -- injection Hres as <- <-. eexists; reflexivity.
        -- destruct (find_cookie _ second) as [[enc|]|e]; cbn in Hres;
             try discriminate; injection Hres as <- <-; eexists; reflexivity.
      * injection Hres as <- <-. eexists; reflexivity.
Qed.

End DecodingFacts.

(** C8: when [decode_bytes] returns, the newline is CR LF or LF; it is CR LF
    exactly when the first line of the source ends with the bytes CR LF; the
    decoded contents hold no CR (universal newlines leave LF as the only
    line terminator); and the encoding is the one [detect_encoding] found. *)
Theorem decode_bytes_contract
    (find_cookie : bool -> bytes -> result (option Encoding))
    (decode : Encoding -> bytes -> result string)
    (src : bytes) (contents : FileContent) (encoding : Encoding) (newline : NewLine) :
  decode_bytes find_cookie decode src = Ok (contents, encoding, newline) ->
  (newline = PyChars.CRLF_str ∨ newline = PyChars.LF_str)
  ∧ (newline = PyChars.CRLF_str <-> ends_with_crlf (first_line src))
  ∧ ¬ has_char PyChars.CR contents
  ∧ (∃ lines, detect_encoding find_cookie src = Ok (encoding, lines)).
Proof.
  unfold decode_bytes. intros Hres.
  destruct (detect_encoding find_cookie src) as [[enc lines]|e] eqn:Hdet;
    [|discriminate Hres].
  cbn [mbind result_bind] in Hres.
  pose proof (detect_encoding_lines find_cookie src enc lines Hdet) as Hlines.
  cbn zeta in Hlines.
  assert (Hcrlf : ∀ line0 more, lines = line0 :: more ->
            (last2 line0 = [CR; LF] <-> ends_with_crlf (first_line src))).
  { intros line0 more ->. destruct Hlines as [[_ [=]]|[_ [more' [= -> _]]]].
    rewrite <- last2_crlf.
    destruct (PyBytes.startswith (first_line src) BOM_UTF8) eqn:Hbom; [|reflexivity].
    rewrite (startswith_bom _ Hbom) at 2. symmetry. apply last2_after_bom. }
  destruct lines as [|line0 more].
  - injection Hres as <- <- <-.
    split; [right; reflexivity|]. split; [|split].
    + split; [discriminate|]. intros Hends. exfalso.
      destruct Hlines as [[Hempty _]|[_ [more [=]]]].
      apply last2_crlf in Hends.
      destruct (PyBytes.startswith (first_line src) BOM_UTF8) eqn:Hbom.
      * rewrite (startswith_bom _ Hbom), Hempty in Hends. discriminate Hends.
      * rewrite Hempty in Hends. discriminate Hends.
    + intros Hin. inversion Hin.
    + exists []. reflexivity.
  - unfold TextIOWrapper_read in Hres.
    destruct (decode enc src) as [text|e]; [|discriminate Hres].
    cbn [mbind result_bind] in Hres. injection Hres as <- <- <-.
    specialize (Hcrlf line0 more eq_refl).
    split; [|split; [|split]].
    + case_bool_decide; [left|right]; reflexivity.
    + rewrite <- Hcrlf. case_bool_decide as Hl.
      * split; [intros _; symmetry; exact Hl|reflexivity].
      * split; [discriminate|]. intros Hl'. exfalso. apply Hl. symmetry. exact Hl'.
    + apply replace_cr_free.
    + exists (line0 :: more). reflexivity.
Qed.

Lemma decode_bytes_contract_witness :
  decode_bytes Sample.find_cookie Sample.decode Sample.crlf_source
  = Ok (String "a" (String PyChars.LF (String "b" PyChars.LF_str)),
        "utf-8", PyChars.CRLF_str)
  ∧ ends_with_crlf (first_line Sample.crlf_source)
  ∧ ¬ has_char PyChars.CR (String "a" (String PyChars.LF (String "b" PyChars.LF_str))).
Proof.
  assert (Hrun : decode_bytes Sample.find_cookie Sample.decode Sample.crlf_source
                 = Ok (String "a" (String PyChars.LF (String "b" PyChars.LF_str)),
                       "utf-8", PyChars.CRLF_str)) by reflexivity.
  pose proof (decode_bytes_contract _ _ _ _ _ _ Hrun) as (_ & Hnl & Hcr & _).
  split; [exact Hrun|]. split; [apply Hnl; reflexivity|exact Hcr].
Defined.

(** ** format_str *)

Section FormatterFacts.

Context {TargetVersion : Type} `{Finite TargetVersion}.
Variable PY27 : TargetVersion.
Variable VERSION_TO_FEATURES : TargetVersion -> gset Feature.
Variable is_simple_decorator_expression : LN -> bool.
Variable STARS : list NodeType.
Variable lib2to3_parse : string -> gset TargetVersion -> result LN.
Variable normalize_fmt_off : LN -> LN.
Variable supports_feature : gset TargetVersion -> Feature -> bool.
Variable Line : Type.
Variable Line_new : Mode (TargetVersion := TargetVersion) -> Line.
Variable Line_str : Line -> string.
Variable LineGenerator_visit : Mode (TargetVersion := TargetVersion) -> bool -> LN -> list Line.
Variable EmptyLineTracker : Type.
Variable EmptyLineTracker_new : bool -> EmptyLineTracker.
Variable maybe_empty_lines : EmptyLineTracker -> Line -> (nat * nat) * EmptyLineTracker.
Variable transform_line :
  Line -> Mode (TargetVersion := TargetVersion) -> gset Feature -> list Line.

Local Abbreviation features_used :=
  (get_features_used is_simple_decorator_expression STARS).
Local Abbreviation detect :=
  (detect_target_versions VERSION_TO_FEATURES is_simple_decorator_expression STARS).
Local Abbreviation resolved :=
  (versions VERSION_TO_FEATURES is_simple_decorator_expression STARS).
Local Abbreviation notices := (panel PY27).
Local Abbreviation render :=
  (format_node normalize_fmt_off supports_feature Line Line_new Line_str
     LineGenerator_visit EmptyLineTracker EmptyLineTracker_new maybe_empty_lines
     transform_line).
Local Abbreviation format :=
  (format_str PY27 VERSION_TO_FEATURES is_simple_decorator_expression STARS
     lib2to3_parse normalize_fmt_off supports_feature Line Line_new Line_str
     LineGenerator_visit EmptyLineTracker EmptyLineTracker_new maybe_empty_lines
     transform_line).

Lemma elem_of_detect_target_versions (node : LN) (version : TargetVersion) :
  version ∈ detect node <-> features_used node ⊆ VERSION_TO_FEATURES version.
Proof.
  unfold detect_target_versions. rewrite elem_of_list_to_set, list_elem_of_filter.
  split; [tauto|]. intros Hsub. split; [exact Hsub|apply elem_of_enum].
Qed.

(** [format_str] once the parse and the future imports have succeeded. *)
Lemma format_str_parsed (src : string) (mode : Mode) (src_node : LN)
    (future_imports : gset string) :
  lib2to3_parse (PyStr.lstrip src) (target_versions mode) = Ok src_node ->
  get_future_imports src_node = Ok future_imports ->
  format src mode =
    Ok (notices mode (resolved mode src_node),
        render mode future_imports (resolved mode src_node) src_node).
Proof.
  intros Hparse Hfut. unfold format_str. rewrite Hparse. cbn [mbind result_bind].
  rewrite Hfut. reflexivity.
Qed.


(** C2: a pinned, non-empty set of target versions is the set [format_str]
    works with, whatever features the tree shows, and the call is not
    rejected; with nothing pinned it works with [detect_target_versions],
    which holds exactly the versions whose [VERSION_TO_FEATURES] entry is a
    superset of [get_features_used] of the tree. *)
Theorem version_resolution_policy (src : string) (mode : Mode) (src_node : LN)
    (future_imports : gset string) :
  lib2to3_parse (PyStr.lstrip src) (target_versions mode) = Ok src_node ->
  get_future_imports src_node = Ok future_imports ->
  (target_versions mode ≠ ∅ ->
   resolved mode src_node = target_versions mode
   ∧ format src mode =
       Ok (notices mode (target_versions mode),
           render mode future_imports (target_versions mode) src_node))
  ∧ (target_versions mode = ∅ ->
     resolved mode src_node = detect src_node
     ∧ format src mode =
         Ok (notices mode (detect src_node),
             render mode future_imports (detect src_node) src_node))
  ∧ (∀ version : TargetVersion,
       version ∈ detect src_node
       <-> features_used src_node ⊆ VERSION_TO_FEATURES version).
Proof.
  intros Hparse Hfut.
  pose proof (format_str_parsed src mode src_node future_imports Hparse Hfut) as Hrun.
  split; [|split].
  - intros Hpinned.
    assert (Hres : resolved mode src_node = target_versions mode).
    { unfold versions. rewrite bool_decide_eq_true_2 by assumption. reflexivity. }
    split; [exact Hres|]. rewrite Hrun, Hres. reflexivity.
  - intros Hnone.
    assert (Hres : resolved mode src_node = detect src_node).
    { unfold versions. rewrite bool_decide_eq_false_2; [reflexivity|].
      intros Hne. exact (Hne Hnone). }
    split; [exact Hres|]. rewrite Hrun, Hres. reflexivity.
  - intros version. apply elem_of_detect_target_versions.
Qed.

(** C3 (amended): once the source parses, [format_str] returns the formatted
    text together with at most one notice, the deprecation message.  The
    notice is there exactly when [PY27] is pinned or the resolved versions
    are exactly [PY27]; with nothing pinned that means [PY27] is the only
    version supporting every feature of the tree.  So with nothing pinned
    there is a notice when a feature only [PY27] supports is seen and
    [PY27] supports all that is seen, and none when some feature seen is not
    supported by [PY27]; with versions pinned and [PY27] not among them
    there is none. *)
Theorem deprecation_notice (src : string) (mode : Mode) (src_node : LN)
    (future_imports : gset string) :
  lib2to3_parse (PyStr.lstrip src) (target_versions mode) = Ok src_node ->
  get_future_imports src_node = Ok future_imports ->
  ∃ shown : list string,
    format src mode =
      Ok (shown, render mode future_imports (resolved mode src_node) src_node)
    ∧ (shown = [deprecation_msg] ∨ shown = [])
    ∧ (shown = [deprecation_msg]
       <-> PY27 ∈ target_versions mode ∨ resolved mode src_node = {[PY27]})
    ∧ (target_versions mode = ∅ ->
       (shown = [deprecation_msg]
        <-> ∀ version : TargetVersion,
              features_used src_node ⊆ VERSION_TO_FEATURES version
              <-> version = PY27))
    ∧ (target_versions mode = ∅ ->
       (∃ f, f ∈ features_used src_node
             ∧ ∀ version, f ∈ VERSION_TO_FEATURES version -> version = PY27) ->
       features_used src_node ⊆ VERSION_TO_FEATURES PY27 ->
       shown = [deprecation_msg])
    ∧ (target_versions mode = ∅ ->
       (∃ f, f ∈ features_used src_node ∧ f ∉ VERSION_TO_FEATURES PY27) ->
       shown = [])
    ∧ (target_versions mode ≠ ∅ -> PY27 ∉ target_versions mode -> shown = []).
Proof.
  intros Hparse Hfut.
  exists (notices mode (resolved mode src_node)).
  split; [exact (format_str_parsed src mode src_node future_imports Hparse Hfut)|].
  assert (Hiff : notices mode (resolved mode src_node) = [deprecation_msg]
                 <-> PY27 ∈ target_versions mode ∨ resolved mode src_node = {[PY27]}).
  { unfold panel. do 2 case_bool_decide; cbn; split; try tauto; try discriminate.
    all: intros _; reflexivity. }
  assert (Hor : notices mode (resolved mode src_node) = [deprecation_msg]
                ∨ notices mode (resolved mode src_node) = []).
  { unfold panel. destruct (_ || _); [left|right]; reflexivity. }
  assert (Hunpinned : target_versions mode = ∅ ->
            (notices mode (resolved mode src_node) = [deprecation_msg]
             <-> ∀ version : TargetVersion,
                   features_used src_node ⊆ VERSION_TO_FEATURES version
                   <-> version = PY27)).
  { intros Hnone. rewrite Hiff.
    assert (Hres : resolved mode src_node = detect src_node).
    { unfold versions. rewrite bool_decide_eq_false_2; [reflexivity|].
      intros Hne. exact (Hne Hnone). }
    rewrite Hres, Hnone. split.
    - intros [Hin|Heq]; [set_solver|]. intros version.
      rewrite <- elem_of_detect_target_versions, Heq. set_solver.
    - intros Hall. right. apply set_eq. intros version.
      rewrite elem_of_detect_target_versions, Hall. set_solver. }
  split; [exact Hor|]. split; [exact Hiff|]. split; [exact Hunpinned|].
  split; [|split].
  - intros Hnone (f & Hf & Honly) Hsub. apply (Hunpinned Hnone).
    intros version. split; [|intros ->; exact Hsub].
    intros Hv. apply Honly, Hv, Hf.
  - intros Hnone (f & Hf & Hnot).
    destruct Hor as [Hshown|Hshown]; [|exact Hshown]. exfalso.
    pose proof (proj1 (Hunpinned Hnone) Hshown) as Hall. apply Hnot.
    apply (proj2 (Hall PY27) eq_refl), Hf.
  - intros Hpinned Hnot27.
    destruct Hor as [Hshown|Hshown]; [|exact Hshown]. exfalso.
    apply Hiff in Hshown as [Hin|Heq]; [exact (Hnot27 Hin)|].
    unfold versions in Heq. rewrite bool_decide_eq_true_2 in Heq by assumption.
    apply Hnot27. rewrite Heq. set_solver.
Qed.

(** C9: [format_str] strips leading whitespace before it parses, so a
    source and its left-stripped form give the same result. *)
Theorem format_str_lstrip (src : string) (mode : Mode) :
  format src mode = format (PyStr.lstrip src) mode.
Proof.
  unfold format_str. rewrite lstrip_idemp. reflexivity.
Qed.

End FormatterFacts.

Lemma version_resolution_policy_witness :
  (versions Sample.VERSION_TO_FEATURES Sample.is_simple_decorator_expression
     Sample.STARS Sample.py36_mode Sample.print_tree = {[Sample.PY36]}
   ∧ Sample.format_str Sample.print_source Sample.py36_mode
     = Ok ([], "print1" +:+ PyChars.LF_str))
  ∧ (versions Sample.VERSION_TO_FEATURES Sample.is_simple_decorator_expression
       Sample.STARS Sample.default_mode Sample.print_tree
     = detect_target_versions Sample.VERSION_TO_FEATURES
         Sample.is_simple_decorator_expression Sample.STARS Sample.print_tree)
  ∧ Sample.PY27 ∈ detect_target_versions Sample.VERSION_TO_FEATURES
                    Sample.is_simple_decorator_expression Sample.STARS Sample.print_tree.
Proof.
  pose proof (version_resolution_policy Sample.PY27 Sample.VERSION_TO_FEATURES
    Sample.is_simple_decorator_expression Sample.STARS Sample.lib2to3_parse
    Sample.normalize_fmt_off Sample.supports_feature Sample.Line Sample.Line_new
    Sample.Line_str Sample.LineGenerator_visit Sample.EmptyLineTracker
    Sample.EmptyLineTracker_new Sample.maybe_empty_lines Sample.transform_line
    Sample.print_source Sample.py36_mode Sample.print_tree ∅ eq_refl eq_refl)
    as (Hpinned & _ & _).
  pose proof (version_resolution_policy Sample.PY27 Sample.VERSION_TO_FEATURES
    Sample.is_simple_decorator_expression Sample.STARS Sample.lib2to3_parse
    Sample.normalize_fmt_off Sample.supports_feature Sample.Line Sample.Line_new
    Sample.Line_str Sample.LineGenerator_visit Sample.EmptyLineTracker
    Sample.EmptyLineTracker_new Sample.maybe_empty_lines Sample.transform_line
    Sample.print_source Sample.default_mode Sample.print_tree ∅ eq_refl eq_refl)
    as (_ & Hnone & Hdetect).
  split; [|split].
  - destruct Hpinned as [Hres Hrun].
    + apply (bool_decide_unpack _). vm_compute. exact I.
    + split; [exact Hres|]. unfold Sample.format_str. rewrite Hrun. reflexivity.
  - apply Hnone. reflexivity.
  - apply Hdetect. apply (bool_decide_unpack _). vm_compute. exact I.
Defined.

(** C3 as stated fails: the tree of [print f'x'] shows the Python 2 only
    [PRINT_STMT], nothing is pinned, and no notice is shown, because the
    f-string leaves no version that supports everything seen. *)
Lemma legacy_construct_without_notice :
  PRINT_STMT ∈ get_features_used Sample.is_simple_decorator_expression Sample.STARS
                 Sample.print_fstring_tree
  ∧ python2_only PRINT_STMT = true
  ∧ (∀ version, PRINT_STMT ∈ Sample.VERSION_TO_FEATURES version -> version = Sample.PY27)
  ∧ target_versions Sample.default_mode = ∅
  ∧ Sample.lib2to3_parse (PyStr.lstrip Sample.print_fstring_source) ∅
    = Ok Sample.print_fstring_tree
  ∧ Sample.format_str Sample.print_fstring_source Sample.default_mode
    = Ok ([], "printf'x'" +:+ PyChars.LF_str).
Proof.
  split; [apply (bool_decide_unpack _); vm_compute; exact I|].
  split; [reflexivity|]. split.
  - intros [] Hin; [reflexivity|]. exfalso. revert Hin.
    apply (bool_decide_unpack _). vm_compute. exact I.
  - repeat split; reflexivity.
Qed.

Lemma deprecation_notice_witness :
  Sample.format_str Sample.print_source Sample.default_mode
  = Ok ([deprecation_msg], "print1" +:+ PyChars.LF_str).
Proof.
  destruct (deprecation_notice Sample.PY27 Sample.VERSION_TO_FEATURES
    Sample.is_simple_decorator_expression Sample.STARS Sample.lib2to3_parse
    Sample.normalize_fmt_off Sample.supports_feature Sample.Line Sample.Line_new
    Sample.Line_str Sample.LineGenerator_visit Sample.EmptyLineTracker
    Sample.EmptyLineTracker_new Sample.maybe_empty_lines Sample.transform_line
    Sample.print_source Sample.default_mode Sample.print_tree ∅ eq_refl eq_refl)
    as (shown & Hrun & _ & _ & _ & Hlegacy & _).
  unfold Sample.format_str. rewrite Hrun. rewrite Hlegacy.
  - reflexivity.
  - reflexivity.
  - exists PRINT_STMT. split.
    + apply (bool_decide_unpack _). vm_compute. exact I.
    + intros [] Hin; [reflexivity|]. exfalso. revert Hin.
      apply (bool_decide_unpack _). vm_compute. exact I.
  - apply (bool_decide_unpack _). vm_compute. exact I.
Defined.


(** * Further properties of the module *)

(** ** Induction over trees, and where the traversal finds a node *)

Lemma LN_forall_ind (P : LN -> Prop) :
  (∀ t text, P (Leaf t text)) ->
  (∀ s ch, Forall P ch -> P (Node s ch)) ->
  ∀ n, P n.
Proof.
  intros HL HN. fix ind 1. intros [t text|s ch].
  - apply HL.
  - apply HN. induction ch as [|c ch IH]; constructor; [apply ind|exact IH].
Qed.

(** What the traversal yields below the root of a subtree. *)
Lemma pre_order_from_unfold (parent : option Symbol) (n : LN) :
  pre_order_from parent n =
    (parent, n)
    :: match n with
       | Leaf _ _ => []
       | Node s ch => flat_map (pre_order_from (Some s)) ch
       end.
Proof. destruct n; reflexivity. Qed.

(** A visited pair is the root with the parent given, or a child of some node
    of the tree together with that node's symbol. *)
Lemma elem_of_pre_order_from (v : Visited) (parent : option Symbol) (t : LN) :
  v ∈ pre_order_from parent t <->
  v = (parent, t)
  ∨ ∃ s ch, occurs (Node s ch) t ∧ v.1 = Some s ∧ v.2 ∈ ch.
Proof.
  revert parent. induction t as [ty text|s ch IH] using LN_forall_ind; intros parent.
  - cbn. rewrite list_elem_of_singleton. split; [auto|].
    intros [?|(s & ch & Hocc & _)]; [assumption|]. inversion Hocc.
  - rewrite pre_order_from_unfold, elem_of_cons. rewrite Forall_forall in IH.
    split.
    + intros [?|Hin]; [auto|]. right.
      apply list_elem_of_In, in_flat_map in Hin as (c & Hc & Hin).
      apply list_elem_of_In in Hc, Hin.
      apply (IH c Hc) in Hin as [->|(s' & ch' & Hocc & Hp & Hn)].
      * exists s, ch. split; [constructor|]. split; [reflexivity|exact Hc].
      * exists s', ch'. split; [|split; assumption].
        apply occurs_below with c; assumption.
    + intros [?|(s' & ch' & Hocc & Hp & Hn)]; [auto|]. right.
      apply list_elem_of_In, in_flat_map.
      inversion Hocc as [|s0 ch0 c Hc Hocc']; subst.
      * exists v.2. split; [apply list_elem_of_In; exact Hn|].
        apply list_elem_of_In, (IH _ Hn). left. destruct v; cbn in *. congruence.
      * exists c. split; [apply list_elem_of_In; exact Hc|].
        apply list_elem_of_In, (IH _ Hc). right. exists s', ch'. auto.
Qed.

Lemma occurs_trans (a b c : LN) : occurs a b -> occurs b c -> occurs a c.
Proof.
  intros Hab Hbc. induction Hbc as [|s ch d Hd _ IH]; [exact Hab|].
  apply occurs_below with d; [exact Hd|exact IH].
Qed.

(** ** The chain of get_features_used, branch by branch *)

Section VisitBranches.

Variable is_simple_decorator_expression : LN -> bool.
Variable STARS : list NodeType.

Local Abbreviation visit_node := (visit is_simple_decorator_expression STARS).
Local Abbreviation features_used :=
  (get_features_used is_simple_decorator_expression STARS).

Lemma visit_leaf (features : gset Feature) (parent : option Symbol)
    (t : TokenType) (text : string) :
  visit_node features (parent, Leaf t text) =
    match t with
    | STRING =>
        if bool_decide
             (PyStr.take 2 text ∈ [f_dq; F_dq; "f'"; "F'"; "rf"; "fr"; "RF"; "FR"])
        then {[F_STRINGS]} ∪ features else features
    | NUMBER =>
        if PyStr.contains "_" text then {[NUMERIC_UNDERSCORES]} ∪ features
        else if PyStr.endswith text "L" || PyStr.endswith text "l" then
          {[LONG_INT_LITERAL]} ∪ features
        else if leading_zero_digit text then
          if negb (all_zeros text) then {[OCTAL_INT_LITERAL]} ∪ features
          else features
        else features
    | SLASH =>
        match parent with
        | Some p =>
            if bool_decide (p ∈ [typedargslist; arglist; varargslist])
            then {[POS_ONLY_ARGUMENTS]} ∪ features else features
        | None => features
        end
    | COLONEQUAL => {[ASSIGNMENT_EXPRESSIONS]} ∪ features
    | BACKQUOTE => {[BACKQUOTE_REPR]} ∪ features
    | _ => features
    end.
Proof.
  destruct t; try reflexivity. apply visit_number.
Qed.

Lemma visit_inner (features : gset Feature) (parent : option Symbol)
    (s : Symbol) (ch : list LN) :
  visit_node features (parent, Node s ch) =
    match s with
    | decorator =>
        match ch !! 1%nat with
        | Some second =>
            if negb (is_simple_decorator_expression second)
            then {[RELAXED_DECORATORS]} ∪ features else features
        | None => features
        end
    | typedargslist =>
        if from_option (fun l => bool_decide (type l = Tok COMMA)) false (last ch)
        then star_features STARS TRAILING_COMMA_IN_DEF ch features else features
    | arglist =>
        if from_option (fun l => bool_decide (type l = Tok COMMA)) false (last ch)
        then star_features STARS TRAILING_COMMA_IN_CALL ch features else features
    | print_stmt => {[PRINT_STMT]} ∪ features
    | exec_stmt => {[EXEC_STMT]} ∪ features
    | tfpdef => {[AUTOMATIC_PARAMETER_UNPACKING]} ∪ features
    | except_clause =>
        if (4 <=? length ch)%nat
           && from_option (fun c => bool_decide (type c = Tok COMMA)) false
                (last_but_one ch)
        then {[COMMA_STYLE_EXCEPT]} ∪ features else features
    | raise_stmt =>
        if (4 <=? length ch)%nat
           && from_option (fun c => bool_decide (type c = Tok COMMA)) false
                (last_but_one ch)
        then {[COMMA_STYLE_RAISE]} ∪ features else features
    | _ => features
    end.
Proof.
  destruct s; try reflexivity.
  all: unfold visit; cbn [type value children]; cbn;
    destruct (from_option _ false (last ch)); reflexivity.
Qed.

(** At the root, where there is no parent, a visit adds no more than it adds
    anywhere else. *)
Lemma visit_root_least (parent : option Symbol) (n : LN) :
  visit_node ∅ (None, n) ⊆ visit_node ∅ (parent, n).
Proof.
  destruct n as [t text|s ch].
  - rewrite !visit_leaf. destruct t; try reflexivity. set_solver.
  - rewrite !visit_inner. reflexivity.
Qed.

(** X1: the features of a subtree, taken as a tree of its own, are among the
    features of any tree it occurs in. *)
Theorem get_features_used_subtree (sub tree : LN) :
  occurs sub tree -> features_used sub ⊆ features_used tree.
Proof.
  intros Hocc f Hf.
  apply elem_of_get_features_used in Hf as ([p n] & Hin & Hf).
  apply elem_of_get_features_used.
  apply elem_of_pre_order_from in Hin as [[= -> ->]|(s & ch & Hnode & Hp & Hn)].
  - apply occurs_pre_order in Hocc as [q Hq].
    exists (q, sub). split; [exact Hq|]. apply (visit_root_least q), Hf.
  - cbn in Hp, Hn. subst p. exists (Some s, n). split; [|exact Hf].
    apply elem_of_pre_order_from. right. exists s, ch.
    split; [exact (occurs_trans _ _ _ Hnode Hocc)|]. split; [reflexivity|exact Hn].
Qed.

End VisitBranches.

Lemma get_features_used_subtree_witness :
  occurs (Node print_stmt [Leaf NAME "print"; Leaf STRING "f'x'"])
    Sample.print_fstring_tree
  ∧ get_features_used Sample.is_simple_decorator_expression Sample.STARS
      (Node print_stmt [Leaf NAME "print"; Leaf STRING "f'x'"])
    ⊆ get_features_used Sample.is_simple_decorator_expression Sample.STARS
        Sample.print_fstring_tree.
Proof.
  assert (Hocc : occurs (Node print_stmt [Leaf NAME "print"; Leaf STRING "f'x'"])
                   Sample.print_fstring_tree).
  { eapply occurs_below; [apply elem_of_cons; left; reflexivity|].
    eapply occurs_below; [apply elem_of_cons; left; reflexivity|]. constructor. }
  split; [exact Hocc|].
  exact (get_features_used_subtree _ _ _ _ Hocc).
Defined.

(** ** Which nodes bring which feature *)

Section FeatureRules.

Variable is_simple_decorator_expression : LN -> bool.
Variable STARS : list NodeType.

Local Abbreviation visit_node := (visit is_simple_decorator_expression STARS).
Local Abbreviation features_used :=
  (get_features_used is_simple_decorator_expression STARS).

(** A feature is used exactly when some node of the tree, visited with some
    parent, adds it. *)
Lemma features_used_occurs (f : Feature) (node : LN) :
  f ∈ features_used node ->
  ∃ parent n, occurs n node ∧ (parent, n) ∈ pre_order node ∧ f ∈ visit_node ∅ (parent, n).
Proof.
  intros Hf. apply elem_of_get_features_used in Hf as ([parent n] & Hin & Hf).
  exists parent, n. split; [|split; assumption].
  apply occurs_pre_order. exists parent. exact Hin.
Qed.

Lemma features_used_intro (f : Feature) (node n : LN) :
  occurs n node -> (∀ parent, f ∈ visit_node ∅ (parent, n)) -> f ∈ features_used node.
Proof.
  intros Hocc Hf. apply occurs_pre_order in Hocc as [parent Hin].
  apply elem_of_get_features_used. exists (parent, n). split; [exact Hin|apply Hf].
Qed.

Ltac visit_cases Hf n :=
  destruct n as [?t ?text|?s ?ch];
  [ rewrite visit_leaf in Hf; match type of Hf with context [match ?t with _ => _ end] => destruct t end
  | rewrite visit_inner in Hf; match type of Hf with context [match ?s with _ => _ end] => destruct s end ];
  repeat case_match;
  try (exfalso; set_solver);
  try (exfalso; apply star_features_bound in Hf; set_solver).

(** X2: [F_STRINGS] is in the feature set exactly when the tree holds a STRING
    token whose first two characters are one of the eight heads listed. *)
Theorem f_strings_rule (node : LN) :
  F_STRINGS ∈ features_used node
  <-> ∃ text, occurs (Leaf STRING text) node ∧ f_string_head text = true.
Proof.
  split.
  - intros Hf. apply features_used_occurs in Hf as (parent & n & Hocc & _ & Hf).
    visit_cases Hf n. exists text. split; [exact Hocc|]. assumption.
  - intros (text & Hocc & Hhead). apply (features_used_intro _ _ _ Hocc).
    intros parent. rewrite visit_leaf. unfold f_string_head in Hhead.
    rewrite Hhead. set_solver.
Qed.

(** X3: [NUMERIC_UNDERSCORES] is used exactly when a NUMBER token holds an
    underscore, and [LONG_INT_LITERAL] exactly when a NUMBER token without
    underscore ends in [L] or [l]: the underscore test comes first. *)
Theorem number_suffix_rules (node : LN) :
  (NUMERIC_UNDERSCORES ∈ features_used node
   <-> ∃ text, occurs (Leaf NUMBER text) node ∧ PyStr.contains "_" text = true)
  ∧ (LONG_INT_LITERAL ∈ features_used node
     <-> ∃ text, occurs (Leaf NUMBER text) node
                 ∧ PyStr.contains "_" text = false
                 ∧ (PyStr.endswith text "L" = true ∨ PyStr.endswith text "l" = true)).
Proof.
  split; split.
  - intros Hf. apply features_used_occurs in Hf as (parent & n & Hocc & _ & Hf).
    visit_cases Hf n. exists text. split; assumption.
  - intros (text & Hocc & Hus). apply (features_used_intro _ _ _ Hocc).
    intros parent. rewrite visit_leaf, Hus. set_solver.
  - intros Hf. apply features_used_occurs in Hf as (parent & n & Hocc & _ & Hf).
    visit_cases Hf n. exists text. split; [exact Hocc|]. split; [assumption|].
    apply orb_true_iff. assumption.
  - intros (text & Hocc & Hus & HL). apply (features_used_intro _ _ _ Hocc).
    intros parent. rewrite visit_leaf, Hus.
    apply orb_true_iff in HL. rewrite HL. set_solver.
Qed.

(** X4: one NUMBER token adds at most one feature. *)
Theorem number_token_one_feature (parent : option Symbol) (text : string) :
  (size (visit_node ∅ (parent, Leaf NUMBER text)) ≤ 1)%nat.
Proof.
  rewrite visit_leaf. repeat case_match;
    rewrite ?union_empty_r_L, ?size_singleton, ?size_empty; lia.
Qed.


(** X5: [POS_ONLY_ARGUMENTS] is used exactly when a SLASH token is a child of
    a [typedargslist], [arglist] or [varargslist]; a slash anywhere else (a
    division, or the root itself) does not count. *)
Theorem pos_only_arguments_rule (node : LN) :
  POS_ONLY_ARGUMENTS ∈ features_used node
  <-> ∃ s ch text, occurs (Node s ch) node
                   ∧ s ∈ [typedargslist; arglist; varargslist]
                   ∧ Leaf SLASH text ∈ ch.
Proof.
  split.
  - intros Hf. apply features_used_occurs in Hf as (parent & n & _ & Hin & Hf).
    visit_cases Hf n.
    apply elem_of_pre_order_from in Hin as [[=]|(s' & ch & Hocc & [= <-] & Hn)].
    exists s, ch, text. split; [exact Hocc|]. split; [|exact Hn].
    match goal with Hb : bool_decide _ = true |- _ => exact (bool_decide_eq_true_1 _ Hb) end.
  - intros (s & ch & text & Hocc & Hs & Hin).
    apply elem_of_get_features_used. exists (Some s, Leaf SLASH text). split.
    + apply elem_of_pre_order_from. right. exists s, ch. auto.
    + rewrite visit_leaf, bool_decide_eq_true_2 by exact Hs. set_solver.
Qed.

(** X6: five features are brought by the mere presence of a node kind: a
    COLONEQUAL token, a [print_stmt], an [exec_stmt], a [tfpdef], a BACKQUOTE
    token. *)
Theorem presence_rules (node : LN) :
  (ASSIGNMENT_EXPRESSIONS ∈ features_used node
   <-> ∃ text, occurs (Leaf COLONEQUAL text) node)
  ∧ (PRINT_STMT ∈ features_used node <-> ∃ ch, occurs (Node print_stmt ch) node)
  ∧ (EXEC_STMT ∈ features_used node <-> ∃ ch, occurs (Node exec_stmt ch) node)
  ∧ (AUTOMATIC_PARAMETER_UNPACKING ∈ features_used node
     <-> ∃ ch, occurs (Node tfpdef ch) node)
  ∧ (BACKQUOTE_REPR ∈ features_used node <-> ∃ text, occurs (Leaf BACKQUOTE text) node).
Proof.
  repeat split.
  all: try (intros Hf; apply features_used_occurs in Hf as (parent & n & Hocc & _ & Hf);
            visit_cases Hf n; eexists; exact Hocc).
  all: intros (x & Hocc); apply (features_used_intro _ _ _ Hocc); intros parent;
    rewrite ?visit_leaf, ?visit_inner; set_solver.
Qed.

(** X7: [COMMA_STYLE_EXCEPT] and [COMMA_STYLE_RAISE] are used exactly when an
    [except_clause], respectively a [raise_stmt], has at least four children
    and a comma as the last but one; a clause such as [except E as e], whose
    last but one child is a name, does not count. *)
Theorem comma_style_rules (node : LN) :
  (COMMA_STYLE_EXCEPT ∈ features_used node
   <-> ∃ ch, occurs (Node except_clause ch) node ∧ comma_style ch = true)
  ∧ (COMMA_STYLE_RAISE ∈ features_used node
     <-> ∃ ch, occurs (Node raise_stmt ch) node ∧ comma_style ch = true).
Proof.
  repeat split.
  all: try (intros Hf; apply features_used_occurs in Hf as (parent & n & Hocc & _ & Hf);
            visit_cases Hf n; eexists; split; [exact Hocc|assumption]).
  all: intros (ch & Hocc & Hstyle); apply (features_used_intro _ _ _ Hocc);
    intros parent; rewrite visit_inner; unfold comma_style in Hstyle;
    rewrite Hstyle; set_solver.
Qed.

Lemma star_inner_union (feature : Feature) (acc : gset Feature) (argch : LN) :
  (if bool_decide (type argch ∈ STARS) then {[feature]} ∪ acc else acc)
  = acc ∪ (if bool_decide (type argch ∈ STARS) then {[feature]} ∪ ∅ else ∅).
Proof. destruct (bool_decide (type argch ∈ STARS)); set_solver. Qed.

Lemma elem_of_star_inner (feature : Feature) (l : list LN) (acc : gset Feature) :
  feature ∈ foldl (fun (features : gset Feature) (argch : LN) =>
                     if bool_decide (type argch ∈ STARS) then {[feature]} ∪ features
                     else features) acc l
  <-> feature ∈ acc
      ∨ existsb (fun argch => bool_decide (type argch ∈ STARS)) l = true.
Proof.
  rewrite (elem_of_foldl_union _ l feature (star_inner_union feature)).
  rewrite existsb_exists. split.
  - intros [?|(x & Hx & Hf)]; [auto|]. right. exists x.
    split; [apply list_elem_of_In; exact Hx|].
    destruct (bool_decide (type x ∈ STARS)); [reflexivity|set_solver].
  - intros [?|(x & Hx & Hf)]; [auto|]. right. exists x.
    split; [apply list_elem_of_In; exact Hx|]. rewrite Hf. set_solver.
Qed.

(** The feature is added by the loop over the children exactly when one of
    them is starred. *)
Lemma elem_of_star_features (feature : Feature) (chs : list LN) :
  feature ∈ star_features STARS feature chs ∅
  <-> ∃ c, c ∈ chs ∧ starred STARS c = true.
Proof.
  unfold star_features.
  rewrite (elem_of_foldl_union _ chs feature).
  2:{ intros acc ch. apply (star_features_union (fun _ => true) STARS feature [ch] acc). }
  split.
  - intros [Hin|(c & Hc & Hf)]; [set_solver|]. exists c. split; [exact Hc|].
    unfold starred. destruct (bool_decide (type c = Sym argument)).
    + apply elem_of_star_inner in Hf as [Hf|Hf].
      * destruct (bool_decide (type c ∈ STARS)); [reflexivity|set_solver].
      * rewrite Hf. apply orb_true_r.
    + destruct (bool_decide (type c ∈ STARS)); [reflexivity|set_solver].
  - intros (c & Hc & Hstar). right. exists c. split; [exact Hc|].
    unfold starred in Hstar. apply orb_true_iff in Hstar as [Hstar|Hstar].
    + rewrite Hstar. destruct (bool_decide (type c = Sym argument)); [|set_solver].
      apply elem_of_star_inner. left. set_solver.
    + apply andb_true_iff in Hstar as [Harg Hstar]. rewrite Harg.
      apply elem_of_star_inner. right. exact Hstar.
Qed.

(** X8: [TRAILING_COMMA_IN_DEF] is used exactly when some [typedargslist]
    ends in a comma and has a starred child, and [TRAILING_COMMA_IN_CALL]
    likewise for an [arglist]; without the trailing comma, or without a star,
    nothing is added. *)
Theorem trailing_comma_rules (node : LN) :
  (TRAILING_COMMA_IN_DEF ∈ features_used node
   <-> ∃ ch, occurs (Node typedargslist ch) node ∧ trailing_comma ch = true
             ∧ ∃ c, c ∈ ch ∧ starred STARS c = true)
  ∧ (TRAILING_COMMA_IN_CALL ∈ features_used node
     <-> ∃ ch, occurs (Node arglist ch) node ∧ trailing_comma ch = true
               ∧ ∃ c, c ∈ ch ∧ starred STARS c = true).
Proof.
  repeat split.
  all: try (intros Hf; apply features_used_occurs in Hf as (parent & n & Hocc & _ & Hf);
            visit_cases Hf n; eexists; split; [exact Hocc|];
            split; [assumption|]; eapply elem_of_star_features; exact Hf).
  all: intros (ch & Hocc & Hcomma & Hstar); apply (features_used_intro _ _ _ Hocc);
    intros parent; rewrite visit_inner; unfold trailing_comma in Hcomma;
    rewrite Hcomma; apply elem_of_star_features; exact Hstar.
Qed.

(** X9: [RELAXED_DECORATORS] is used exactly when some [decorator] node has a
    second child that [is_simple_decorator_expression] rejects; a decorator
    node with fewer than two children adds nothing. *)
Theorem relaxed_decorators_rule (node : LN) :
  RELAXED_DECORATORS ∈ features_used node
  <-> ∃ ch second, occurs (Node decorator ch) node ∧ ch !! 1%nat = Some second
                   ∧ is_simple_decorator_expression second = false.
Proof.
  split.
  - intros Hf. apply features_used_occurs in Hf as (parent & n & Hocc & _ & Hf).
    visit_cases Hf n. eexists _, _. split; [exact Hocc|]. split; [eassumption|].
    apply negb_true_iff. assumption.
  - intros (ch & second & Hocc & Hsecond & Hsimple).
    apply (features_used_intro _ _ _ Hocc). intros parent.
    rewrite visit_inner, Hsecond, Hsimple. set_solver.
Qed.

(** X10: [UNICODE_LITERALS] is never among the features detected. *)
Theorem unicode_literals_never_detected (node : LN) :
  UNICODE_LITERALS ∉ features_used node.
Proof.
  intros Hf. apply features_used_occurs in Hf as (parent & n & _ & _ & Hf).
  visit_cases Hf n.
Qed.

End FeatureRules.

(** ** detect_target_versions *)

Section DetectFacts.

Context {TargetVersion : Type} `{Finite TargetVersion}.
Variable VERSION_TO_FEATURES : TargetVersion -> gset Feature.
Variable is_simple_decorator_expression : LN -> bool.
Variable STARS : list NodeType.

Local Abbreviation features_used :=
  (get_features_used is_simple_decorator_expression STARS).
Local Abbreviation detect :=
  (detect_target_versions VERSION_TO_FEATURES is_simple_decorator_expression STARS).

(** X11: a tree is compatible with no more versions than any of its subtrees
    is: what occurs inside can only rule versions out. *)
Theorem detect_target_versions_subtree (sub tree : LN) :
  occurs sub tree -> detect tree ⊆ detect sub.
Proof.
  intros Hocc version.
  rewrite !(elem_of_detect_target_versions VERSION_TO_FEATURES
             is_simple_decorator_expression STARS (fun n => n)).
  intros Hsub.
  pose proof (get_features_used_subtree is_simple_decorator_expression STARS
                sub tree Hocc) as Hmono.
  set_solver.
Qed.

(** A tree in which no feature is detected is compatible with every
    target version, whatever the table says. *)
Theorem detect_target_versions_no_feature (node : LN) (version : TargetVersion) :
  features_used node = ∅ -> version ∈ detect node.
Proof.
  intros Hnone.
  apply (elem_of_detect_target_versions VERSION_TO_FEATURES
           is_simple_decorator_expression STARS (fun n => n)).
  rewrite Hnone. set_solver.
Qed.

End DetectFacts.

Lemma detect_target_versions_subtree_witness :
  occurs (Node print_stmt [Leaf NAME "print"; Leaf STRING "f'x'"])
    Sample.print_fstring_tree
  ∧ detect_target_versions Sample.VERSION_TO_FEATURES
      Sample.is_simple_decorator_expression Sample.STARS Sample.print_fstring_tree
    ⊆ detect_target_versions Sample.VERSION_TO_FEATURES
        Sample.is_simple_decorator_expression Sample.STARS
        (Node print_stmt [Leaf NAME "print"; Leaf STRING "f'x'"]).
Proof.
  assert (Hocc : occurs (Node print_stmt [Leaf NAME "print"; Leaf STRING "f'x'"])
                   Sample.print_fstring_tree).
  { eapply occurs_below; [apply elem_of_cons; left; reflexivity|].
    eapply occurs_below; [apply elem_of_cons; left; reflexivity|]. constructor. }
  split; [exact Hocc|].
  exact (detect_target_versions_subtree _ _ _ _ _ Hocc).
Defined.

Lemma detect_target_versions_no_feature_witness :
  Sample.PY36 ∈ detect_target_versions Sample.VERSION_TO_FEATURES
                  Sample.is_simple_decorator_expression Sample.STARS
                  Sample.future_module_tree.
Proof.
  apply detect_target_versions_no_feature.
  apply (bool_decide_unpack _). vm_compute. exact I.
Defined.

(** ** The names get_imports_from_children yields *)

Lemma traverse_Forall2 {A B : Type} (f : A -> result B) (l : list A) (ys : list B) :
  traverse f l = Ok ys <-> Forall2 (fun x y => f x = Ok y) l ys.
Proof.
  revert ys. induction l as [|x l IH]; intros ys; cbn [traverse].
  - split; [intros [= <-]; constructor|]. intros Hall. inversion Hall. reflexivity.
  - fold (traverse f). split.
    + intros Hrun. destruct (f x) as [y|e] eqn:Hx; [|discriminate Hrun].
      cbn [mbind result_bind] in Hrun.
      destruct (traverse f l) as [ys'|e] eqn:Hl; [|discriminate Hrun].
      injection Hrun as <-. constructor; [exact Hx|]. apply IH. reflexivity.
    + intros Hall. inversion Hall as [|x' y l' ys' Hx Hl]; subst.
      rewrite Hx. cbn [mbind result_bind].
      apply IH in Hl. rewrite Hl. reflexivity.
Qed.

Lemma traverse_raises {A B : Type} (f : A -> result B) (l : list A) :
  (∃ ys, traverse f l = Ok ys) <-> Forall (fun x => ∃ y, f x = Ok y) l.
Proof.
  induction l as [|x l IH]; cbn [traverse].
  - split; [constructor|]. intros _. eexists; reflexivity.
  - fold (traverse f). rewrite Forall_cons, <- IH. split.
    + intros [ys Hrun]. destruct (f x) as [y|e]; [|discriminate Hrun].
      cbn [mbind result_bind] in Hrun.
      destruct (traverse f l) as [ys'|e]; [|discriminate Hrun]. eauto.
    + intros [[y ->] [ys ->]]. eexists; reflexivity.
Qed.

Lemma get_imports_from_child_names (name : string) (c : LN) :
  ∀ names, get_imports_from_child c = Ok names ->
           (name ∈ names <-> imports_name name c).
Proof.
  induction c as [t text|s ch IH] using LN_forall_ind; intros names Hrun.
  - cbn in Hrun. case_bool_decide as Ht; injection Hrun as <-.
    + subst t. rewrite list_elem_of_singleton. split.
      * intros ->. constructor.
      * intros Himp. inversion Himp. reflexivity.
    + split; [intros Hin; inversion Hin|]. intros Himp. inversion Himp; congruence.
  - cbn [get_imports_from_child] in Hrun. fold (traverse get_imports_from_child) in Hrun.
    destruct (decide (s = import_as_name)) as [->|Hs1].
    + rewrite bool_decide_eq_true_2 in Hrun by reflexivity.
      destruct ch as [|[t text|s' ch'] rest]; try discriminate Hrun.
      cbn in Hrun. case_bool_decide as Ht; [|discriminate Hrun].
      injection Ht as ->. injection Hrun as <-.
      rewrite list_elem_of_singleton. split.
      * intros ->. constructor.
      * intros Himp. inversion Himp. reflexivity.
    + rewrite (bool_decide_eq_false_2 (s = import_as_name)) in Hrun by assumption.
      destruct (decide (s = import_as_names)) as [->|Hs2].
      2:{ rewrite bool_decide_eq_false_2 in Hrun by assumption. discriminate Hrun. }
      rewrite bool_decide_eq_true_2 in Hrun by reflexivity.
      destruct (traverse get_imports_from_child ch) as [lists|e] eqn:Hl;
        [|discriminate Hrun].
      cbn [mbind result_bind] in Hrun. injection Hrun as <-.
      apply traverse_Forall2 in Hl. rewrite list_elem_of_In, in_concat. split.
      * intros (l & Hl' & Hin). apply list_elem_of_In in Hl', Hin.
        apply list_elem_of_lookup in Hl' as [i Hi].
        destruct (Forall2_lookup_r _ _ _ _ _ Hl Hi) as (c & Hc & Hrun).
        apply imports_nested with c; [eapply list_elem_of_lookup_2; exact Hc|].
        rewrite Forall_forall in IH.
        apply (IH c (list_elem_of_lookup_2 _ _ _ Hc) l Hrun), Hin.
      * intros Himp. inversion Himp as [| |ch0 c Hc Himp']; subst.
        apply list_elem_of_lookup in Hc as [i Hi].
        destruct (Forall2_lookup_l _ _ _ _ _ Hl Hi) as (l & Hl' & Hrun).
        exists l. split; apply list_elem_of_In.
        -- eapply list_elem_of_lookup_2; exact Hl'.
        -- rewrite Forall_forall in IH.
           apply (IH c (list_elem_of_lookup_2 _ _ _ Hi) l Hrun), Himp'.
Qed.

(** X12: when [get_imports_from_children] returns, the names it yields are
    exactly those some target brings in: the text of a NAME leaf, the name
    before [as] of an [import_as_name] (never the alias after it), and the
    names of the targets inside an [import_as_names]. *)
Theorem get_imports_from_children_names (chs : list LN) (names : list string)
    (name : string) :
  get_imports_from_children chs = Ok names ->
  (name ∈ names <-> ∃ c, c ∈ chs ∧ imports_name name c).
Proof.
  unfold get_imports_from_children. intros Hrun.
  destruct (traverse get_imports_from_child chs) as [lists|e] eqn:Hl;
    [|discriminate Hrun].
  cbn [mbind result_bind] in Hrun. injection Hrun as <-.
  apply traverse_Forall2 in Hl. rewrite list_elem_of_In, in_concat. split.
  - intros (l & Hl' & Hin). apply list_elem_of_In in Hl', Hin.
    apply list_elem_of_lookup in Hl' as [i Hi].
    destruct (Forall2_lookup_r _ _ _ _ _ Hl Hi) as (c & Hc & Hrun).
    exists c. split; [eapply list_elem_of_lookup_2; exact Hc|].
    apply (get_imports_from_child_names name c l Hrun), Hin.
  - intros (c & Hc & Himp). apply list_elem_of_lookup in Hc as [i Hi].
    destruct (Forall2_lookup_l _ _ _ _ _ Hl Hi) as (l & Hl' & Hrun).
    exists l. split; apply list_elem_of_In.
    + eapply list_elem_of_lookup_2; exact Hl'.
    + apply (get_imports_from_child_names name c l Hrun), Himp.
Qed.

Lemma get_imports_from_children_names_witness :
  "annotations" ∈ ["annotations"; "division"]
  <-> ∃ c, c ∈ [ Node import_as_names
                   [ Node import_as_name
                       [Leaf NAME "annotations"; Leaf NAME "as"; Leaf NAME "a"];
                     Leaf COMMA ","; Leaf NAME "division" ] ]
           ∧ imports_name "annotations" c.
Proof.
  apply get_imports_from_children_names. reflexivity.
Defined.

Lemma forallb_Forall_true {A : Type} (f : A -> bool) (l : list A) :
  forallb f l = true <-> Forall (fun x => f x = true) l.
Proof.
  induction l as [|x l IH]; cbn; [split; [constructor|reflexivity]|].
  rewrite andb_true_iff, Forall_cons, IH. reflexivity.
Qed.

Lemma get_imports_from_child_accepted (c : LN) :
  (∃ names, get_imports_from_child c = Ok names) <-> accepted_target c = true.
Proof.
  induction c as [t text|s ch IH] using LN_forall_ind.
  - cbn. split; [reflexivity|]. intros _. case_bool_decide; eexists; reflexivity.
  - cbn [get_imports_from_child]. fold (traverse get_imports_from_child).
    destruct (decide (s = import_as_name)) as [->|Hs1].
    + rewrite bool_decide_eq_true_2 by reflexivity.
      destruct ch as [|[t text|s' ch'] rest]; cbn.
      * split; [intros [? [=]]|discriminate].
      * destruct t; cbn; split; try discriminate; try (intros [? [=]]).
        -- reflexivity.
        -- intros _. eexists; reflexivity.
      * split; [intros [? [=]]|discriminate].
    + rewrite (bool_decide_eq_false_2 (s = import_as_name)) by assumption.
      destruct (decide (s = import_as_names)) as [->|Hs2].
      * rewrite bool_decide_eq_true_2 by reflexivity. cbn [accepted_target].
        rewrite forallb_Forall_true.
        transitivity (∃ lists, traverse get_imports_from_child ch = Ok lists).
        -- split.
           ++ intros [names Hrun].
              destruct (traverse get_imports_from_child ch) as [lists|e];
                [eauto|discriminate Hrun].
           ++ intros [lists ->]. eexists; reflexivity.
        -- rewrite traverse_raises. clear -IH.
           induction IH as [|c ch Hc _ IHch]; [split; constructor|].
           rewrite !Forall_cons, Hc, IHch. reflexivity.
      * rewrite bool_decide_eq_false_2 by assumption.
        split; [intros [? [=]]|]. destruct s; try discriminate; congruence.
Qed.

(** X13: [get_imports_from_children] returns exactly when every target is
    accepted; any other node among the targets (or nested in an
    [import_as_names]) makes it raise. *)
Theorem get_imports_from_children_accepted (chs : list LN) :
  (∃ names, get_imports_from_children chs = Ok names)
  <-> forallb accepted_target chs = true.
Proof.
  unfold get_imports_from_children.
  rewrite forallb_Forall_true.
  transitivity (∃ lists, traverse get_imports_from_child chs = Ok lists).
  - split.
    + intros [names Hrun].
      destruct (traverse get_imports_from_child chs) as [lists|e];
        [eauto|discriminate Hrun].
    + intros [lists ->]. eexists; reflexivity.
  - rewrite traverse_raises. apply Forall_iff. intros c.
    apply get_imports_from_child_accepted.
Qed.

(** ** decode_bytes: what is decoded, and when it fails *)

Lemma readline_split (buf line unread : bytes) :
  readline buf = (line, unread) ->
  buf = (line ++ unread)%list ∧ (unread ≠ [] -> last line = Some LF).
Proof.
  revert line unread. induction buf as [|x buf IH]; intros line unread; cbn.
  - intros [= <- <-]. split; [reflexivity|]. intros Hne. contradiction.
  - case_bool_decide as Hx.
    + intros [= <- <-]. subst x. split; reflexivity.
    + destruct (readline buf) as [line' unread'] eqn:Hrl. intros [= <- <-].
      destruct (IH line' unread' eq_refl) as [-> Hlast]. split; [reflexivity|].
      intros Hne. specialize (Hlast Hne).
      destruct line' as [|y line']; [discriminate Hlast|exact Hlast].
Qed.

Lemma replace_without_head (c : ascii) (old new s : string) :
  ¬ has_char c s -> replace (String c old) new s = s.
Proof.
  unfold replace, has_char. induction s as [|a s IH]; intros Hnot; [reflexivity|].
  cbn [replace_from PyStr.startswith]. cbn in Hnot.
  rewrite bool_decide_eq_false_2.
  - cbn. f_equal. apply IH. intros Hin. apply Hnot. right. exact Hin.
  - intros ->. apply Hnot. left.
Qed.

Lemma translate_newlines_without_cr (text : string) :
  ¬ has_char PyChars.CR text -> translate_newlines text = text.
Proof.
  intros Hnot. unfold translate_newlines, PyChars.CRLF_str.
  rewrite (replace_without_head PyChars.CR _ _ text Hnot).
  apply (replace_without_head PyChars.CR EmptyString _ text Hnot).
Qed.

Section DecodingMore.

Variable find_cookie : bool -> bytes -> result (option Encoding).
Variable decode : Encoding -> bytes -> result string.

Lemma detect_encoding_no_lines (src : bytes) :
  (∃ encoding, detect_encoding find_cookie src = Ok (encoding, []))
  <-> src = [] ∨ src = BOM_UTF8.
Proof.
  split.
  - intros [encoding Hdet].
    pose proof (detect_encoding_lines find_cookie src encoding [] Hdet) as Hlines.
    cbn zeta in Hlines. destruct Hlines as [[Hempty _]|[_ [more [=]]]].
    unfold first_line in Hempty.
    destruct (readline src) as [line unread] eqn:Hrl. cbn [fst] in Hempty.
    apply readline_split in Hrl as [-> Hlast].
    destruct (PyBytes.startswith line BOM_UTF8) eqn:Hbom.
    + apply startswith_bom in Hbom. rewrite Hempty, app_nil_r in Hbom. subst line.
      destruct unread as [|x unread]; [right; reflexivity|].
      assert (Hne : x :: unread ≠ []) by discriminate.
      specialize (Hlast Hne). discriminate Hlast.
    + subst line. destruct unread as [|x unread]; [left; reflexivity|].
      assert (Hne : x :: unread ≠ []) by discriminate.
      specialize (Hlast Hne). discriminate Hlast.
  - intros [->| ->]; eexists; reflexivity.
Qed.

(** X14: the early return of [decode_bytes] (no line was read) is taken
    exactly for the empty source and for a source that is just a UTF-8 BOM;
    the result is then empty contents, the default encoding ([utf-8], or
    [utf-8-sig] after the BOM) and LF, whatever the codecs would do. *)
Theorem decode_bytes_early_return (src : bytes) :
  ((∃ encoding, detect_encoding find_cookie src = Ok (encoding, []))
   <-> src = [] ∨ src = BOM_UTF8)
  ∧ (src = [] ∨ src = BOM_UTF8 ->
     decode_bytes find_cookie decode src
     = Ok (EmptyString, if bool_decide (src = []) then "utf-8" else "utf-8-sig",
           PyChars.LF_str)).
Proof.
  split; [apply detect_encoding_no_lines|]. intros [->| ->]; reflexivity.
Qed.

(** X15: [decode_bytes] raises exactly when [detect_encoding] raises, or when
    it has read a line and decoding the source raises; the exception is
    passed on unchanged. *)
Theorem decode_bytes_raises (src : bytes) (e : PyError) :
  decode_bytes find_cookie decode src = Raise e
  <-> detect_encoding find_cookie src = Raise e
      ∨ ∃ encoding line0 more,
          detect_encoding find_cookie src = Ok (encoding, line0 :: more)
          ∧ decode encoding src = Raise e.
Proof.
  unfold decode_bytes.
  destruct (detect_encoding find_cookie src) as [[encoding lines]|e'];
    cbn [mbind result_bind].
  - destruct lines as [|line0 more].
    + split; [discriminate|]. intros [[=]|(? & ? & ? & [=] & _)].
    + unfold TextIOWrapper_read.
      destruct (decode encoding src) as [text|e'] eqn:Hdec; cbn [mbind result_bind].
      * split; [discriminate|].
        intros [[=]|(enc & l & m & [= <- <- <-] & Hraise)].
        rewrite Hdec in Hraise. discriminate Hraise.
      * split.
        -- intros [= <-]. right. exists encoding, line0, more. split; [reflexivity|exact Hdec].
        -- intros [[=]|(enc & l & m & [= <- <- <-] & Hraise)].
           rewrite Hdec in Hraise. injection Hraise as <-. reflexivity.
  - split; [intros [= <-]; left; reflexivity|].
    intros [[= <-]|(? & ? & ? & [=] & _)]. reflexivity.
Qed.

(** X16: a source whose decoded text holds no CR comes back as that text,
    unchanged by the newline translation. *)
Theorem decode_bytes_lf_text (src : bytes) (encoding : Encoding)
    (line0 : bytes) (more : list bytes) (text : string) :
  detect_encoding find_cookie src = Ok (encoding, line0 :: more) ->
  decode encoding src = Ok text ->
  ¬ has_char PyChars.CR text ->
  ∃ newline, decode_bytes find_cookie decode src = Ok (text, encoding, newline).
Proof.
  intros Hdet Hdec Hnot. unfold decode_bytes. rewrite Hdet. cbn [mbind result_bind].
  unfold TextIOWrapper_read. rewrite Hdec. cbn [mbind result_bind].
  rewrite (translate_newlines_without_cr text Hnot). eexists; reflexivity.
Qed.

End DecodingMore.

Lemma decode_bytes_early_return_witness :
  decode_bytes Sample.find_cookie (fun _ _ => Raise UnicodeDecodeError) BOM_UTF8
  = Ok (EmptyString, "utf-8-sig", PyChars.LF_str).
Proof.
  apply (proj2 (decode_bytes_early_return Sample.find_cookie
                  (fun _ _ => Raise UnicodeDecodeError) BOM_UTF8)).
  right. reflexivity.
Defined.

Lemma decode_bytes_lf_text_witness :
  ∃ newline,
    decode_bytes Sample.find_cookie Sample.decode Fixture.lf_source
    = Ok (String "x" PyChars.LF_str, "utf-8", newline).
Proof.
  apply (decode_bytes_lf_text Sample.find_cookie Sample.decode Fixture.lf_source
           "utf-8" Fixture.lf_source [] (String "x" PyChars.LF_str)).
  - reflexivity.
  - reflexivity.
  - unfold has_char. cbn. intros Hin.
    repeat (apply elem_of_cons in Hin as [Hin|Hin]; [discriminate Hin|]).
    inversion Hin.
Defined.

(** ** format_str: exceptions, leading whitespace, growing output *)

Lemma lstrip_whitespace_prefix (ws s : string) :
  PyStr.all PyStr.isspace ws = true -> PyStr.lstrip (ws +:+ s) = PyStr.lstrip s.
Proof.
  induction ws as [|c ws IH]; intros Hall; [reflexivity|].
  cbn [PyStr.all] in Hall. apply andb_true_iff in Hall as [Hc Hall].
  change (String c ws +:+ s) with (String c (ws +:+ s)).
  cbn [PyStr.lstrip]. rewrite Hc. exact (IH Hall).
Qed.

Lemma str_app_assoc (x y z : string) : (x +:+ y) +:+ z = x +:+ (y +:+ z).
Proof.
  induction x as [|a x IH]; [reflexivity|].
  change (String a ((x +:+ y) +:+ z) = String a (x +:+ (y +:+ z))).
  f_equal. exact IH.
Qed.

Lemma join_app (xs ys : list string) :
  PyStr.join (xs ++ ys)%list = PyStr.join xs +:+ PyStr.join ys.
Proof.
  unfold PyStr.join. induction xs as [|x xs IH]; cbn [app foldr]; [reflexivity|].
  rewrite IH. symmetry. apply str_app_assoc.
Qed.

Section FormatterMore.

Context {TargetVersion : Type} `{Finite TargetVersion}.
Variable PY27 : TargetVersion.
Variable VERSION_TO_FEATURES : TargetVersion -> gset Feature.
Variable is_simple_decorator_expression : LN -> bool.
Variable STARS : list NodeType.
Variable lib2to3_parse : string -> gset TargetVersion -> result LN.
Variable normalize_fmt_off : LN -> LN.
Variable supports_feature : gset TargetVersion -> Feature -> bool.
Variable Line : Type.
Variable Line_new : Mode (TargetVersion := TargetVersion) -> Line.
Variable Line_str : Line -> string.
Variable LineGenerator_visit : Mode (TargetVersion := TargetVersion) -> bool -> LN -> list Line.
Variable EmptyLineTracker : Type.
Variable EmptyLineTracker_new : bool -> EmptyLineTracker.
Variable maybe_empty_lines : EmptyLineTracker -> Line -> (nat * nat) * EmptyLineTracker.
Variable transform_line :
  Line -> Mode (TargetVersion := TargetVersion) -> gset Feature -> list Line.

Local Abbreviation render :=
  (format_node normalize_fmt_off supports_feature Line Line_new Line_str
     LineGenerator_visit EmptyLineTracker EmptyLineTracker_new maybe_empty_lines
     transform_line).
Local Abbreviation format :=
  (format_str PY27 VERSION_TO_FEATURES is_simple_decorator_expression STARS
     lib2to3_parse normalize_fmt_off supports_feature Line Line_new Line_str
     LineGenerator_visit EmptyLineTracker EmptyLineTracker_new maybe_empty_lines
     transform_line).
Local Abbreviation emit_line :=
  (emit Line Line_new Line_str EmptyLineTracker maybe_empty_lines transform_line).

(** X17: an exception of [get_future_imports] on the parsed tree comes out of
    [format_str] unchanged: nothing is shown and no text is returned. *)
Theorem format_str_import_error (src : string) (mode : Mode) (src_node : LN)
    (e : PyError) :
  lib2to3_parse (PyStr.lstrip src) (target_versions mode) = Ok src_node ->
  get_future_imports src_node = Raise e ->
  format src mode = Raise e.
Proof.
  intros Hparse Hfut. unfold format_str. rewrite Hparse. cbn [mbind result_bind].
  rewrite Hfut. reflexivity.
Qed.

(** X18: whitespace put in front of a source does not change what
    [format_str] returns. *)
Theorem format_str_leading_whitespace (ws src : string) (mode : Mode) :
  PyStr.all PyStr.isspace ws = true ->
  format (ws +:+ src) mode = format src mode.
Proof.
  intros Hws. unfold format_str. rewrite (lstrip_whitespace_prefix ws src Hws).
  reflexivity.
Qed.

(** The loop only ever appends to [dst_contents]. *)
Lemma emit_appends (mode : Mode) (features : gset Feature) (lines : list Line) :
  ∀ (elt : EmptyLineTracker) (after : nat) (dst : list string),
    ∃ pieces, (foldl (emit_line mode features) (elt, after, dst) lines).2
              = (dst ++ pieces)%list.
Proof.
  induction lines as [|line lines IH]; intros elt after dst; cbn [foldl].
  - exists []. cbn. rewrite app_nil_r. reflexivity.
  - unfold emit at 2.
    destruct (maybe_empty_lines elt line) as [[before after'] elt'].
    match goal with
    | |- context [foldl _ (elt', after', ?d) lines] =>
        destruct (IH elt' after' d) as [pieces Hpieces]
    end.
    rewrite Hpieces. rewrite <- !app_assoc. eexists. reflexivity.
Qed.

(** X19: when the line generator yields, for one tree, the lines it yields
    for another followed by more lines, the text for the first tree begins
    with the whole text for the other: later lines never change what the
    earlier ones produced. *)
Theorem format_node_extends (mode : Mode) (future_imports : gset string)
    (versions : gset TargetVersion) (shorter longer : LN) (more : list Line) :
  (∀ remove_u_prefix,
     LineGenerator_visit mode remove_u_prefix (normalize_fmt_off longer)
     = (LineGenerator_visit mode remove_u_prefix (normalize_fmt_off shorter) ++ more)%list) ->
  ∃ rest, render mode future_imports versions longer
          = render mode future_imports versions shorter +:+ rest.
Proof.
  intros Hlines. unfold format_node. rewrite Hlines, foldl_app.
  match goal with
  | |- context [foldl ?f ?init (LineGenerator_visit ?m ?b ?n)] =>
      destruct (foldl f init (LineGenerator_visit m b n)) as [[elt after] dst]
  end.
  match goal with
  | |- context [foldl (emit_line mode ?features) (elt, after, dst) more] =>
      destruct (emit_appends mode features more elt after dst) as [pieces Hpieces];
      destruct (foldl (emit_line mode features) (elt, after, dst) more)
        as [[elt' after'] dst']
  end.
  cbn [snd] in Hpieces. subst dst'. exists (PyStr.join pieces). apply join_app.
Qed.

End FormatterMore.

Lemma unicode_literals_never_detected_witness :
  F_STRINGS ∈ get_features_used Sample.is_simple_decorator_expression Sample.STARS
                Sample.print_fstring_tree
  ∧ UNICODE_LITERALS ∉
      get_features_used Sample.is_simple_decorator_expression Sample.STARS
        Sample.print_fstring_tree.
Proof.
  split; [apply (bool_decide_unpack _); vm_compute; exact I|].
  apply unicode_literals_never_detected.
Defined.

Lemma format_str_import_error_witness :
  format_str Sample.PY27 Sample.VERSION_TO_FEATURES
    Sample.is_simple_decorator_expression Sample.STARS Fixture.lib2to3_parse
    Sample.normalize_fmt_off Sample.supports_feature Sample.Line Sample.Line_new
    Sample.Line_str Sample.LineGenerator_visit Sample.EmptyLineTracker
    Sample.EmptyLineTracker_new Sample.maybe_empty_lines Sample.transform_line
    "from __future__ import" Sample.default_mode
  = Raise (AssertionError "Invalid syntax parsing imports").
Proof.
  apply (format_str_import_error Sample.PY27 Sample.VERSION_TO_FEATURES
           Sample.is_simple_decorator_expression Sample.STARS Fixture.lib2to3_parse
           Sample.normalize_fmt_off Sample.supports_feature Sample.Line Sample.Line_new
           Sample.Line_str Sample.LineGenerator_visit Sample.EmptyLineTracker
           Sample.EmptyLineTracker_new Sample.maybe_empty_lines Sample.transform_line
           "from __future__ import" Sample.default_mode Fixture.broken_import_tree).
  - reflexivity.
  - reflexivity.
Defined.

Lemma format_str_leading_whitespace_witness :
  Sample.format_str (String " " (String PyChars.LF (String "009" Sample.print_source)))
    Sample.default_mode
  = Sample.format_str Sample.print_source Sample.default_mode.
Proof.
  apply (format_str_leading_whitespace Sample.PY27 Sample.VERSION_TO_FEATURES
           Sample.is_simple_decorator_expression Sample.STARS Sample.lib2to3_parse
           Sample.normalize_fmt_off Sample.supports_feature Sample.Line Sample.Line_new
           Sample.Line_str Sample.LineGenerator_visit Sample.EmptyLineTracker
           Sample.EmptyLineTracker_new Sample.maybe_empty_lines Sample.transform_line
           (String " " (String PyChars.LF (String "009" EmptyString)))
           Sample.print_source Sample.default_mode).
  reflexivity.
Defined.

Lemma format_node_extends_witness :
  ∃ rest,
    format_node Sample.normalize_fmt_off Sample.supports_feature Sample.Line
      Sample.Line_new Sample.Line_str Sample.LineGenerator_visit
      Sample.EmptyLineTracker Sample.EmptyLineTracker_new Sample.maybe_empty_lines
      Sample.transform_line Sample.default_mode ∅ {[Sample.PY27]}
      Fixture.two_statements
    = format_node Sample.normalize_fmt_off Sample.supports_feature Sample.Line
        Sample.Line_new Sample.Line_str Sample.LineGenerator_visit
        Sample.EmptyLineTracker Sample.EmptyLineTracker_new Sample.maybe_empty_lines
        Sample.transform_line Sample.default_mode ∅ {[Sample.PY27]}
        Fixture.one_statement
      +:+ rest.
Proof.
  apply (format_node_extends Sample.normalize_fmt_off Sample.supports_feature
           Sample.Line Sample.Line_new Sample.Line_str Sample.LineGenerator_visit
           Sample.EmptyLineTracker Sample.EmptyLineTracker_new
           Sample.maybe_empty_lines Sample.transform_line Sample.default_mode ∅
           {[Sample.PY27]} Fixture.one_statement Fixture.two_statements
           ["print2" +:+ PyChars.LF_str]).
  intros remove_u_prefix. reflexivity.
Defined.

(** ** Lines that join statements with a semicolon *)

(** C5 (the code departs from it): on a line that joins two [__future__]
    imports with a semicolon only the first is collected, so [division] is
    missing from the result although it is imported in the leading run; and
    when such a line joins an import with an assignment, the scan goes on to
    the next line and collects [division] from behind the assignment. *)
Theorem get_future_imports_semicolon_lines :
  get_future_imports Fixture.two_imports_one_line = Ok {["annotations"]}
  ∧ get_future_imports Fixture.import_then_assignment
    = Ok {["annotations"; "division"]}.
Proof.
  split; cbn; f_equal; apply (bool_decide_unpack _); vm_compute; exact I.
Qed.

(** ** format_str: all of the text, or the parser's exception *)

Lemma get_imports_from_children_returns (chs : list LN) :
  forallb accepted_target chs = true ->
  ∃ names, get_imports_from_children chs = Ok names.
Proof.
  intros Hacc. apply forallb_Forall_true in Hacc.
  assert (Hrun : ∃ lists, traverse get_imports_from_child chs = Ok lists).
  { apply traverse_raises. eapply Forall_impl; [exact Hacc|].
    intros c Hc. apply get_imports_from_child_accepted, Hc. }
  destruct Hrun as [lists Hrun]. unfold get_imports_from_children.
  rewrite Hrun. eexists; reflexivity.
Qed.

(** On lines of the shape the grammar gives, the scan for future imports
    never raises. *)
Lemma future_imports_loop_returns (chs : list LN) :
  Forall (fun stmt => grammar_shaped stmt = true) chs ->
  ∀ imports, ∃ found, future_imports_loop chs imports = Ok found.
Proof.
  induction 1 as [|child rest Hshape _ IH]; intros imports; cbn [future_imports_loop].
  - eexists; reflexivity.
  - destruct child as [t v|s ch]; [eexists; reflexivity|].
    destruct (decide (s = simple_stmt)) as [->|Hs].
    2:{ cbn [type]. rewrite bool_decide_eq_false_2 by congruence.
        eexists; reflexivity. }
    cbn [type children negb]. rewrite bool_decide_eq_true_2 by reflexivity. cbn [negb].
    destruct ch as [|first tl]; [discriminate Hshape|]. cbn [lookup list_lookup].
    destruct first as [t v|s' ch']; cbn [is_leaf].
    + destruct (_ && _); [apply IH|eexists; reflexivity].
    + destruct (decide (s' = import_from)) as [->|Hs'].
      2:{ cbn [type]. rewrite bool_decide_eq_false_2 by congruence.
          eexists; reflexivity. }
      cbn [type children]. rewrite bool_decide_eq_true_2 by reflexivity.
      cbn [grammar_shaped] in Hshape. apply andb_true_iff in Hshape as [Hlen Hacc].
      destruct ch' as [|kw [|module after]]; try discriminate Hlen.
      cbn [lookup list_lookup].
      destruct (negb (is_leaf module) || negb (bool_decide (value module = "__future__")));
        [eexists; reflexivity|].
      destruct (get_imports_from_children_returns _ Hacc) as [names ->].
      cbn [mbind result_bind]. apply IH.
Qed.

Lemma get_future_imports_returns (node : LN) :
  Forall (fun stmt => grammar_shaped stmt = true) (children node) ->
  ∃ future_imports, get_future_imports node = Ok future_imports.
Proof. intros Hshape. apply (future_imports_loop_returns _ Hshape). Qed.

Lemma str_app_empty_r (x : string) : x +:+ EmptyString = x.
Proof.
  induction x as [|a x IH]; [reflexivity|].
  change (String a (x +:+ EmptyString) = String a x). f_equal. exact IH.
Qed.

Lemma join_singleton (x : string) : PyStr.join [x] = x.
Proof. unfold PyStr.join. cbn [foldr]. apply str_app_empty_r. Qed.

Section WholeTextFacts.

Context {TargetVersion : Type} `{Finite TargetVersion}.
Variable PY27 : TargetVersion.
Variable VERSION_TO_FEATURES : TargetVersion -> gset Feature.
Variable is_simple_decorator_expression : LN -> bool.
Variable STARS : list NodeType.
Variable parser : string -> gset TargetVersion -> ParseOutcome.
Variable normalize_fmt_off : LN -> LN.
Variable supports_feature : gset TargetVersion -> Feature -> bool.
Variable Line : Type.
Variable Line_new : Mode (TargetVersion := TargetVersion) -> Line.
Variable Line_str : Line -> string.
Variable LineGenerator_visit : Mode (TargetVersion := TargetVersion) -> bool -> LN -> list Line.
Variable EmptyLineTracker : Type.
Variable EmptyLineTracker_new : bool -> EmptyLineTracker.
Variable maybe_empty_lines : EmptyLineTracker -> Line -> (nat * nat) * EmptyLineTracker.
Variable transform_line :
  Line -> Mode (TargetVersion := TargetVersion) -> gset Feature -> list Line.

Local Abbreviation emit_line :=
  (emit Line Line_new Line_str EmptyLineTracker maybe_empty_lines transform_line).
Local Abbreviation text_of :=
  (whole_text Line Line_new Line_str EmptyLineTracker maybe_empty_lines transform_line).
Local Abbreviation render :=
  (format_node normalize_fmt_off supports_feature Line Line_new Line_str
     LineGenerator_visit EmptyLineTracker EmptyLineTracker_new maybe_empty_lines
     transform_line).
Local Abbreviation format :=
  (format_str PY27 VERSION_TO_FEATURES is_simple_decorator_expression STARS
     (parse_with parser) normalize_fmt_off supports_feature Line Line_new Line_str
     LineGenerator_visit EmptyLineTracker EmptyLineTracker_new maybe_empty_lines
     transform_line).
Local Abbreviation resolved :=
  (versions VERSION_TO_FEATURES is_simple_decorator_expression STARS).

(** Joining what the loop has collected gives what was there before followed
    by the text of every line it went through. *)
Lemma foldl_emit_whole_text (mode : Mode) (features : gset Feature)
    (lines : list Line) :
  ∀ (elt : EmptyLineTracker) (after : nat) (dst : list string),
    PyStr.join (foldl (emit_line mode features) (elt, after, dst) lines).2
    = PyStr.join dst +:+ text_of mode features elt after lines.
Proof.
  induction lines as [|line lines IH]; intros elt after dst;
    cbn [foldl whole_text].
  - cbn [snd]. rewrite <- (app_nil_r dst) at 1. rewrite join_app. reflexivity.
  - unfold emit at 2.
    destruct (maybe_empty_lines elt line) as [[before after'] elt'].
    rewrite IH, !join_app, !join_singleton, !str_app_assoc. reflexivity.
Qed.

(** The text [format_str] builds for a tree is the text of every line. *)
Lemma format_node_whole_text (mode : Mode) (future_imports : gset string)
    (versions : gset TargetVersion) (src_node : LN) :
  render mode future_imports versions src_node =
    text_of mode
      (filter (fun feature => supports_feature versions feature = true)
         ({[TRAILING_COMMA_IN_CALL; TRAILING_COMMA_IN_DEF]} : gset Feature))
      (EmptyLineTracker_new (is_pyi mode)) 0%nat
      (LineGenerator_visit mode
         (bool_decide ("unicode_literals" ∈ future_imports)
          || supports_feature versions UNICODE_LITERALS)
         (normalize_fmt_off src_node)).
Proof.
  unfold format_node.
  match goal with
  | |- context [foldl (emit_line mode ?features) (?e, ?a, ?d) ?l] =>
      pose proof (foldl_emit_whole_text mode features l e a d) as Hjoin;
      destruct (foldl (emit_line mode features) (e, a, d) l) as [[elt after] dst]
  end.
  cbn [snd] in Hjoin. rewrite Hjoin. reflexivity.
Qed.


End WholeTextFacts.

